(** * DataLik: table administration, backup/restore and metrics layer

    A shallow embedding of [utils/database.py] ([DatabaseManager]),
    [modules/database_admin.py] (pagination, backup, restore) and
    [utils/data_processor.py] ([get_kpi_metrics]).

    The database is PostgreSQL reached through an SQLAlchemy session.  The
    SQL text that the Python code builds with f-strings is represented by
    the statement it spells ([stmt]); the engine gives those statements their
    standard SQL meaning, and free-form SQL typed by the operator is handed
    to an arbitrary engine function [raw_engine].  The session keeps a
    committed database, the working database of the open transaction and
    PostgreSQL's "transaction aborted" flag.  Messages shown with [st.error]
    and [st.success] are appended to [ui_log]. *)

From Stdlib Require Import List String Ascii ZArith QArith Bool Lia Permutation Sorted.
From Stdlib Require Import Lqa.
From Stdlib Require Mergesort Orders.
Import ListNotations.
Close Scope Q_scope.
Set Warnings "-register-all".
Open Scope string_scope.

(** ** Values, tables, databases *)

(** A cell value.  [VDec units scale] is a DECIMAL (NUMERIC) value, the
    number [units * 10^-scale], which psycopg2 returns as a
    [decimal.Decimal]; [VOther r] is another value that is not JSON-native
    (a date, a timestamp); [r] is what Python's [str] makes of it. *)
Inductive value : Type :=
| VNull
| VInt (z : Z)
| VStr (s : string)
| VOther (repr : string)
| VDec (units : Z) (scale : nat).

(** The number held by an INTEGER or DECIMAL cell, as [units * 10^-scale]. *)
Definition num_parts (v : value) : option (Z * nat) :=
  match v with
  | VInt z => Some (z, O)
  | VDec u s => Some (u, s)
  | _ => None
  end.

(** [u1 * 10^-s1 <= u2 * 10^-s2] *)
Definition dec_le (u1 : Z) (s1 : nat) (u2 : Z) (s2 : nat) : bool :=
  Z.leb (u1 * 10 ^ Z.of_nat s2)%Z (u2 * 10 ^ Z.of_nat s1)%Z.

(** [u1 * 10^-s1 + u2 * 10^-s2], exact, at the larger of the two scales (as
    PostgreSQL adds NUMERIC values). *)
Definition dec_add (u1 : Z) (s1 : nat) (u2 : Z) (s2 : nat) : Z * nat :=
  let s := Nat.max s1 s2 in
  ((u1 * 10 ^ Z.of_nat (s - s1) + u2 * 10 ^ Z.of_nat (s - s2))%Z, s).

(** Decimal digits of a non-negative integer. *)
Fixpoint z_digits (fuel : nat) (n : Z) (acc : string) : string :=
  match fuel with
  | O => acc
  | S f =>
      let acc' := String (Ascii.ascii_of_nat (48 + Z.to_nat (n mod 10)%Z)) acc in
      if Z.ltb n 10 then acc' else z_digits f (n / 10)%Z acc'
  end.

Definition string_of_Z_abs (n : Z) : string :=
  z_digits (S (Z.to_nat (Z.log2 (Z.abs n)))) (Z.abs n) "".

(** [str(Decimal)] in positional notation: the sign, the digits of
    [units] padded with zeros to more than [scale] digits, and a point
    before the last [scale] of them.  Python writes a Decimal this way
    whenever its adjusted exponent is at least -6, so for every value of
    the schema's DECIMAL columns (scale 2). *)
Definition decimal_str (u : Z) (s : nat) : string :=
  let ds0 := string_of_Z_abs u in
  let ds := String.append (string_of_list_ascii (repeat "0"%char (S s - String.length ds0))) ds0 in
  let k := String.length ds - s in
  String.append (if Z.ltb u 0 then "-" else "")
    (String.append (substring 0 k ds)
       (match s with O => "" | _ => String.append "." (substring k s ds) end)).

Definition value_eqb (a b : value) : bool :=
  match a, b with
  | VNull, VNull => true
  | VInt x, VInt y => Z.eqb x y
  | VStr x, VStr y => String.eqb x y
  | VOther x, VOther y => String.eqb x y
  | VDec u s, VDec v t => Z.eqb (u * 10 ^ Z.of_nat t)%Z (v * 10 ^ Z.of_nat s)%Z
  | _, _ => false
  end.

Record table : Type := mkTable {
  tcols : list string;          (* column names, in declaration order *)
  trows : list (list value)     (* rows in scan order, aligned with tcols *)
}.

Definition db : Type := list (string * table).

Fixpoint db_lookup (d : db) (t : string) : option table :=
  match d with
  | [] => None
  | (n, tb) :: d' => if String.eqb n t then Some tb else db_lookup d' t
  end.

Fixpoint db_update (d : db) (t : string) (tb : table) : db :=
  match d with
  | [] => []
  | (n, tb0) :: d' =>
      if String.eqb n t then (n, tb) :: d' else (n, tb0) :: db_update d' t tb
  end.

Fixpoint index_of (c : string) (cs : list string) : option nat :=
  match cs with
  | [] => None
  | c' :: cs' =>
      if String.eqb c c' then Some 0
      else option_map S (index_of c cs')
  end.

Definition cell (cols : list string) (row : list value) (c : string)
  : option value :=
  match index_of c cols with
  | Some i => Some (nth i row VNull)
  | None => None
  end.

(** ** SQL statements issued by the code *)

(** [WHERE] conditions appearing in [get_business_metrics]. *)
Inductive cond : Type :=
| CEqStr (col : string) (s : string)          (* col = 's' *)
| CInStr (col : string) (ss : list string)    (* col IN ('a', 'b') *)
| CLeCol (c1 c2 : string).                    (* c1 <= c2 *)

(** The [limit] argument of [get_table_data]: an integer, or the text
    ["{page_size} OFFSET {offset}"] built by the table browser. *)
Inductive limit_arg : Type :=
| LimInt (n : Z)
| LimText (size offset : nat).

(** A placeholder in an INSERT's VALUES list: [%s] or [:name]. *)
Inductive placeholder : Type :=
| PhPercent
| PhNamed (name : string).

Inductive stmt : Type :=
| SSelectAll (t : string) (lim : option limit_arg)
| SCountWhere (t : string) (c : cond)
| SSumWhere (t : string) (col : string) (c : cond)
| SDelete (t : string)
| SInsert (t : string) (cols : list string) (phs : list placeholder)
| SRaw (text : string).

(** JSON values, as [json.loads] produces them. *)
Inductive json : Type :=
| JNull
| JBool (b : bool)
| JInt (z : Z)
| JStr (s : string)
| JArr (l : list json)
| JObj (kv : list (string * json)).

(** Bind parameters handed to [session.execute]. *)
Inductive params : Type :=
| PNone
| PDict (kv : list (string * value))
| PList (xs : list json).

Definition params_truthy (p : params) : bool :=
  match p with
  | PNone => false
  | PDict kv => negb (Nat.eqb (List.length kv) 0)
  | PList xs => negb (Nat.eqb (List.length xs) 0)
  end.

Inductive sql_result : Type :=
| RRows (cols : list string) (rows : list (list value))
| RScalar (v : value)
| RDone.

Inductive engine_outcome : Type :=
| EOk (d : db) (r : sql_result)
| EErr (msg : string).

(** ** The SQL engine *)

Section Engine.

(** The meaning of free-form operator SQL is left to the engine. *)
Variable raw_engine : db -> string -> engine_outcome.

(** Three-valued condition: [inl None] is SQL NULL (unknown), [inr msg] a
    query error. *)
Definition eval_cond (cols : list string) (row : list value) (c : cond)
  : option bool + string :=
  match c with
  | CEqStr col s =>
      match cell cols row col with
      | None => inr ("column " ++ col ++ " does not exist")
      | Some VNull => inl None
      | Some (VStr x) | Some (VOther x) => inl (Some (String.eqb x s))
      | Some (VInt _) => inr "invalid input syntax for type integer"
      | Some (VDec _ _) => inr "invalid input syntax for type numeric"
      end
  | CInStr col ss =>
      match cell cols row col with
      | None => inr ("column " ++ col ++ " does not exist")
      | Some VNull => inl None
      | Some (VStr x) | Some (VOther x) =>
          inl (Some (existsb (String.eqb x) ss))
      | Some (VInt _) => inr "invalid input syntax for type integer"
      | Some (VDec _ _) => inr "invalid input syntax for type numeric"
      end
  | CLeCol c1 c2 =>
      match cell cols row c1, cell cols row c2 with
      | None, _ => inr ("column " ++ c1 ++ " does not exist")
      | _, None => inr ("column " ++ c2 ++ " does not exist")
      | Some VNull, Some _ | Some _, Some VNull => inl None
      | Some (VInt a), Some (VInt b) => inl (Some (Z.leb a b))
      | Some x, Some y =>
          match num_parts x, num_parts y with
          | Some (a, s), Some (b, t) => inl (Some (dec_le a s b t))
          | _, _ => inr "operator does not exist"
          end
      end
  end.

(** [SELECT COUNT(star) FROM t WHERE c]: rows where [c] is TRUE. *)
Fixpoint count_where (cols : list string) (rows : list (list value)) (c : cond)
  : Z + string :=
  match rows with
  | [] => inl 0%Z
  | r :: rs =>
      match eval_cond cols r c, count_where cols rs c with
      | inr e, _ => inr e
      | _, inr e => inr e
      | inl (Some true), inl n => inl (1 + n)%Z
      | inl _, inl n => inl n
      end
  end.

(** One step of [SUM]: a cell added to the running total of the later rows
    (NULL when none).  INTEGER cells sum to an integer; as soon as a DECIMAL
    takes part the total is a DECIMAL.  A cell that is not a number has no
    [SUM]. *)
Definition sum_step (x acc : value) : option value :=
  match x, acc with
  | VInt a, VInt b => Some (VInt (a + b))
  | _, VNull => match num_parts x with Some _ => Some x | None => None end
  | _, _ =>
      match num_parts x, num_parts acc with
      | Some (a, s), Some (b, t) => let '(u, sc) := dec_add a s b t in Some (VDec u sc)
      | _, _ => None
      end
  end.

(** [SELECT SUM(col) FROM t WHERE c]: NULL when no non-NULL value matches. *)
Fixpoint sum_where (cols : list string) (rows : list (list value))
    (col : string) (c : cond) : value + string :=
  match rows with
  | [] => inl VNull
  | r :: rs =>
      match eval_cond cols r c, sum_where cols rs col c with
      | inr e, _ => inr e
      | _, inr e => inr e
      | inl (Some true), inl acc =>
          match cell cols r col with
          | None => inr ("column " ++ col ++ " does not exist")
          | Some VNull => inl acc
          | Some x =>
              match sum_step x acc with
              | Some v => inl v
              | None => inr "function sum does not exist"
              end
          end
      | inl _, inl acc => inl acc
      end
  end.

(** [SELECT * FROM t [LIMIT ...]]. *)
Definition apply_limit (lim : option limit_arg) (rows : list (list value))
  : list (list value) + string :=
  match lim with
  | None => inl rows
  | Some (LimInt n) =>
      if Z.ltb n 0 then inr "LIMIT must not be negative"
      else inl (firstn (Z.to_nat n) rows)
  | Some (LimText size off) => inl (firstn size (skipn off rows))
  end.

(** Values of an INSERT's placeholders under the bound parameters. *)
Fixpoint bind_values (phs : list placeholder) (p : params)
  : list value + string :=
  match phs with
  | [] => inl []
  | PhPercent :: _ => inr "syntax error at or near %"
  | PhNamed n :: phs' =>
      let v := match p with
               | PDict kv =>
                   option_map snd (find (fun kv1 => String.eqb (fst kv1) n) kv)
               | _ => None
               end in
      match v, bind_values phs' p with
      | None, _ => inr ("A value is required for bind parameter " ++ n)
      | _, inr e => inr e
      | Some x, inl xs => inl (x :: xs)
      end
  end.

(** The stored row: each table column takes the inserted value of the same
    name, or NULL. *)
Definition build_row (tcs : list string) (cols : list string) (vs : list value)
  : list value :=
  map (fun tc => match index_of tc cols with
                 | Some i => nth i vs VNull
                 | None => VNull
                 end) tcs.

Definition run_stmt (d : db) (s : stmt) (p : params) : engine_outcome :=
  match s with
  | SRaw txt => raw_engine d txt
  | SSelectAll t lim =>
      match db_lookup d t with
      | None => EErr ("relation " ++ t ++ " does not exist")
      | Some tb =>
          match apply_limit lim (trows tb) with
          | inl rs => EOk d (RRows (tcols tb) rs)
          | inr e => EErr e
          end
      end
  | SCountWhere t c =>
      match db_lookup d t with
      | None => EErr ("relation " ++ t ++ " does not exist")
      | Some tb =>
          match count_where (tcols tb) (trows tb) c with
          | inl n => EOk d (RScalar (VInt n))
          | inr e => EErr e
          end
      end
  | SSumWhere t col c =>
      match db_lookup d t with
      | None => EErr ("relation " ++ t ++ " does not exist")
      | Some tb =>
          match sum_where (tcols tb) (trows tb) col c with
          | inl v => EOk d (RScalar v)
          | inr e => EErr e
          end
      end
  | SDelete t =>
      match db_lookup d t with
      | None => EErr ("relation " ++ t ++ " does not exist")
      | Some tb => EOk (db_update d t (mkTable (tcols tb) [])) RDone
      end
  | SInsert t cols phs =>
      match db_lookup d t with
      | None => EErr ("relation " ++ t ++ " does not exist")
      | Some tb =>
          if Nat.eqb (List.length cols) 0 then EErr "syntax error at or near )"
          else if negb (forallb (fun c => existsb (String.eqb c) (tcols tb)) cols)
          then EErr "column does not exist"
          else if negb (Nat.eqb (List.length cols) (List.length phs))
          then EErr "INSERT has more target columns than expressions"
          else match bind_values phs p with
               | inr e => EErr e
               | inl vs =>
                   EOk (db_update d t
                          (mkTable (tcols tb)
                             (trows tb ++ [build_row (tcols tb) cols vs])))
                       RDone
               end
      end
  end.

End Engine.

(** ** The session: SQLAlchemy [Session] over one PostgreSQL connection *)

Record world : Type := mkWorld {
  committed : db;         (* what the database holds for everybody *)
  working : db;           (* the open transaction's view *)
  aborted : bool;         (* PostgreSQL: "current transaction is aborted" *)
  ui_log : list string    (* messages shown to the operator *)
}.

(** A state and exception monad: Python code that may raise. *)
Definition M (A : Type) : Type := world -> world * (A + string).

Definition ret {A} (a : A) : M A := fun w => (w, inl a).
Definition raise {A} (e : string) : M A := fun w => (w, inr e).
Definition bind {A B} (m : M A) (k : A -> M B) : M B := fun w =>
  match m w with
  | (w', inl a) => k a w'
  | (w', inr e) => (w', inr e)
  end.
Definition try_except {A} (m : M A) (h : string -> M A) : M A := fun w =>
  match m w with
  | (w', inl a) => (w', inl a)
  | (w', inr e) => h e w'
  end.

Notation "x <- m ;; k" := (bind m (fun x => k))
  (at level 61, m at next level, right associativity).
Notation "m ;;; k" := (bind m (fun _ => k))
  (at level 61, right associativity).

(** [st.error(msg)] / [st.success(msg)] *)
Definition st_show (msg : string) : M unit := fun w =>
  (mkWorld (committed w) (working w) (aborted w) (ui_log w ++ [msg]), inl tt).

Definition session_rollback : M unit := fun w =>
  (mkWorld (committed w) (committed w) false (ui_log w), inl tt).

(** COMMIT of an aborted PostgreSQL transaction is a ROLLBACK. *)
Definition session_commit : M unit := fun w =>
  if aborted w then session_rollback w
  else (mkWorld (working w) (working w) false (ui_log w), inl tt).

(** The refusal of [_distill_params_20] (SQLAlchemy 2.0, as of 2.0.54). *)
Definition distill_error : string :=
  "List argument must consist only of dictionaries".

Definition is_mapping (j : json) : bool :=
  match j with JObj _ => true | _ => false end.

Section Program.

Variable raw_engine : db -> string -> engine_outcome.

(** [session.execute(text(query), params)].  SQLAlchemy first checks the
    shape of the parameters ([_distill_params_20]): a list or tuple whose
    first element is not a mapping is refused before anything reaches the
    database. *)
Definition session_execute (s : stmt) (p : params) : M sql_result := fun w =>
  let refused := match p with
                 | PList (x :: _) => negb (is_mapping x)
                 | _ => false
                 end in
  if refused then (w, inr distill_error)
  else if aborted w then
    (w, inr "current transaction is aborted, commands ignored until end of transaction block")
  else
    match run_stmt raw_engine (working w) s p with
    | EOk d r => (mkWorld (committed w) d false (ui_log w), inl r)
    | EErr e => (mkWorld (committed w) (working w) true (ui_log w), inr e)
    end.

(** [with get_database_connection() as db:] opens a fresh session; leaving
    the block closes it, which drops whatever was not committed. *)
Definition with_connection {A} (m : M A) : M A := fun w =>
  let '(w1, r) := m (mkWorld (committed w) (committed w) false (ui_log w)) in
  (mkWorld (committed w1) (committed w1) false (ui_log w1), r).

(** *** [DatabaseManager.execute_query] *)
Definition execute_query (query : stmt) (p : params) : M (option sql_result) :=
  try_except
    (result <- (if params_truthy p then session_execute query p
                else session_execute query PNone) ;;
     session_commit ;;;
     ret (Some result))
    (fun e =>
       session_rollback ;;;
       st_show ("Query execution error: " ++ e) ;;;
       ret None).

(** *** [DatabaseManager.get_table_data] *)
Record dataframe : Type := mkDF {
  df_cols : list string;
  df_rows : list (list value)
}.

Definition empty_df : dataframe := mkDF [] [].

(** Python truthiness of the [limit] argument. *)
Definition limit_truthy (l : limit_arg) : bool :=
  match l with
  | LimInt n => negb (Z.eqb n 0)
  | LimText _ _ => true
  end.

(** [f"SELECT * FROM {table_name}"] plus [f" LIMIT {limit}"] if [limit]. *)
Definition table_query (table_name : string) (limit : option limit_arg) : stmt :=
  SSelectAll table_name
    (match limit with
     | Some l => if limit_truthy l then Some l else None
     | None => None
     end).

Definition get_table_data (table_name : string) (limit : option limit_arg)
  : M dataframe :=
  try_except
    (result <- session_execute (table_query table_name limit) PNone ;;
     match result with
     | RRows columns data => ret (mkDF columns data)
     | _ => raise "This result object does not return rows"
     end)
    (fun e =>
       st_show ("Error fetching data from " ++ table_name ++ ": " ++ e) ;;;
       ret empty_df).

(** The table browser of [show_database_admin]: page [page_num] of size
    [page_size]. *)
Definition page_offset (page_size page_num : nat) : nat :=
  (page_num - 1) * page_size.

Definition fetch_page (table_name : string) (page_size page_num : nat)
  : M dataframe :=
  get_table_data table_name
    (Some (LimText page_size (page_offset page_size page_num))).

(** *** [DatabaseManager.get_business_metrics] *)

(** Python dict assignment [d[k] = v]. *)
Fixpoint dict_set {V} (d : list (string * V)) (k : string) (v : V)
  : list (string * V) :=
  match d with
  | [] => [(k, v)]
  | (k', v') :: d' =>
      if String.eqb k' k then (k', v) :: d' else (k', v') :: dict_set d' k v
  end.

(** [result.scalar()] *)
Definition scalar (r : sql_result) : value :=
  match r with
  | RScalar v => v
  | RRows _ ((v :: _) :: _) => v
  | _ => VNull
  end.

(** [x or 0]: None, an empty string and a zero [Decimal] are falsy (the
    [float(...)] around the revenue keeps the number). *)
Definition or_zero (v : value) : value :=
  match v with
  | VNull => VInt 0
  | VStr "" => VInt 0
  | VDec 0 _ => VInt 0
  | _ => v
  end.

Definition q_active_customers : stmt :=
  SCountWhere "customers" (CEqStr "status" "Active").
Definition q_total_revenue : stmt :=
  SSumWhere "invoices" "amount" (CEqStr "status" "Paid").
Definition q_low_stock_items : stmt :=
  SCountWhere "inventory" (CLeCol "current_stock" "reorder_point").
Definition q_total_employees : stmt :=
  SCountWhere "employees" (CEqStr "status" "Active").
Definition q_active_projects : stmt :=
  SCountWhere "projects" (CInStr "status" ["Planning"; "In Progress"]).

Definition get_business_metrics : M (list (string * value)) :=
  let metrics := [] in
  try_except
    (result <- session_execute q_active_customers PNone ;;
     let metrics := dict_set metrics "active_customers" (or_zero (scalar result)) in
     result <- session_execute q_total_revenue PNone ;;
     let metrics := dict_set metrics "total_revenue" (or_zero (scalar result)) in
     result <- session_execute q_low_stock_items PNone ;;
     let metrics := dict_set metrics "low_stock_items" (or_zero (scalar result)) in
     result <- session_execute q_total_employees PNone ;;
     let metrics := dict_set metrics "total_employees" (or_zero (scalar result)) in
     result <- session_execute q_active_projects PNone ;;
     let metrics := dict_set metrics "active_projects" (or_zero (scalar result)) in
     ret metrics)
    (fun e =>
       st_show ("Error getting business metrics: " ++ e) ;;;
       ret []).

(** *** Backup ([show_database_backup], left column) *)

(** [json.dumps(..., default=str)]: values that are not JSON-native are
    written as their string form. *)
Definition json_of_value (v : value) : json :=
  match v with
  | VNull => JNull
  | VInt z => JInt z
  | VStr s => JStr s
  | VOther r => JStr r
  | VDec u sc => JStr (decimal_str u sc)
  end.

(** [df.to_dict('records')] *)
Definition to_records (df : dataframe) : json :=
  JArr (map (fun row => JObj (combine (df_cols df) (map json_of_value row)))
            (df_rows df)).

Fixpoint backup_loop (tables : list string) (backup_data : list (string * json))
  : M (list (string * json)) :=
  match tables with
  | [] => ret backup_data
  | table :: rest =>
      backup_data' <-
        try_except
          (df <- get_table_data table None ;;
           ret (dict_set backup_data table (to_records df)))
          (fun e => st_show ("Error backing up " ++ table ++ ": " ++ e) ;;;
                    ret backup_data) ;;
      backup_loop rest backup_data'
  end.

(** The downloaded document (the JSON text read back by [json.loads] is the
    same JSON value). *)
Definition create_backup (backup_tables : list string) : M (option json) :=
  match backup_tables with
  | [] => st_show "Please select at least one table to backup." ;;; ret None
  | _ =>
      backup_data <- with_connection (backup_loop backup_tables []) ;;
      match backup_data with
      | [] => ret None
      | _ => st_show "Backup created successfully!" ;;; ret (Some (JObj backup_data))
      end
  end.

(** *** Restore ([show_database_backup], right column) *)

(** [for record in records]: what Python iterates over for each JSON shape;
    [None] is a [TypeError] (not iterable). *)
Definition iter_records (records : json) : option (list json) :=
  match records with
  | JArr l => Some l
  | JObj kv => Some (map (fun kv1 => JStr (fst kv1)) kv)
  | JStr s => Some (map (fun c => JStr (String c EmptyString)) (list_ascii_of_string s))
  | _ => None
  end.

Definition insert_record (table_name : string) (record : json) : M unit :=
  match record with
  | JObj kv =>
      let columns := map fst kv in
      let values := map snd kv in
      let placeholders := repeat PhPercent (List.length values) in
      _ <- execute_query (SInsert table_name columns placeholders) (PList values) ;;
      ret tt
  | _ => raise "AttributeError: object has no attribute 'keys'"
  end.

Fixpoint insert_records (table_name : string) (records : list json) : M unit :=
  match records with
  | [] => ret tt
  | record :: rest => insert_record table_name record ;;; insert_records table_name rest
  end.

Definition restore_table (table_name : string) (records : json) : M unit :=
  _ <- execute_query (SDelete table_name) PNone ;;
  match iter_records records with
  | None => raise "TypeError: object is not iterable"
  | Some rs => insert_records table_name rs
  end.

Fixpoint restore_loop (items : list (string * json)) (restored_tables : list string)
  : M (list string) :=
  match items with
  | [] => ret restored_tables
  | (table_name, records) :: rest =>
      restored' <-
        try_except
          (restore_table table_name records ;;;
           ret (app restored_tables [table_name]))
          (fun e => st_show ("Error restoring " ++ table_name ++ ": " ++ e) ;;;
                    ret restored_tables) ;;
      restore_loop rest restored'
  end.

(** Returns the tables reported as restored. *)
Definition restore_backup (backup_data : json) : M (list string) :=
  try_except
    (match backup_data with
     | JObj items =>
         restored_tables <- with_connection (restore_loop items []) ;;
         match restored_tables with
         | [] => st_show "No tables were restored successfully." ;;; ret []
         | _ => st_show ("Successfully restored tables: "
                         ++ String.concat ", " restored_tables) ;;;
                ret restored_tables
         end
     | _ => raise "AttributeError: object has no attribute 'items'"
     end)
    (fun e => st_show ("Error reading backup file: " ++ e) ;;; ret []).

End Program.

(** ** [get_kpi_metrics] ([utils/data_processor.py]) *)

Open Scope Q_scope.

(** A row of the transaction table: its [date] (seconds; [None] is NaT, what
    [pd.to_datetime] makes of a missing date), [revenue] and [customer]
    ([None] is a missing value, NaN).  A missing revenue is written 0: the
    function only sums revenue, and [sum] skips NaN.  A column the DataFrame
    lacks is recorded by its flag. *)
Record krow : Type := mkKRow {
  kdate : option Z;
  krevenue : Q;
  kcustomer : option Z
}.

Record kdata : Type := mkKData {
  has_date : bool;
  has_revenue : bool;
  has_customer : bool;
  krows : list krow
}.

(** [timedelta(days=30)] in seconds. *)
Definition thirty_days : Z := 30 * 86400.

(** [df['revenue'].sum()] *)
Definition revenue_sum (rs : list krow) : Q :=
  fold_right (fun r acc => krevenue r + acc) 0 rs.

(** The customers present in the rows (missing ones dropped). *)
Definition customers_of (rs : list krow) : list Z :=
  flat_map (fun r => match kcustomer r with Some c => [c] | None => [] end) rs.

(** [df['customer'].nunique()]: NaN is not counted. *)
Definition nunique (rs : list krow) : nat :=
  List.length (nodup Z.eq_dec (customers_of rs)).

Definition QofNat (n : nat) : Q := inject_Z (Z.of_nat n).

(** [x > 0] on Q. *)
Definition Qpos_b (x : Q) : bool := negb (Qle_bool x 0).

(** [data['date'].max()]: NaT is skipped; NaT when no date is present. *)
Fixpoint latest_date (rs : list krow) : option Z :=
  match rs with
  | [] => None
  | r :: rs' =>
      match kdate r, latest_date rs' with
      | Some d, Some m => Some (Z.max d m)
      | Some d, None => Some d
      | None, m => m
      end
  end.

(** Datetime arithmetic and comparisons: NaT minus a timedelta is NaT, and a
    comparison with NaT is False. *)
Definition dt_sub (x : option Z) (k : Z) : option Z :=
  option_map (fun a => (a - k)%Z) x.
Definition dt_ge (x y : option Z) : bool :=
  match x, y with Some a, Some b => Z.leb b a | _, _ => false end.
Definition dt_lt (x y : option Z) : bool :=
  match x, y with Some a, Some b => Z.ltb a b | _, _ => false end.

Definition current_window (rs : list krow) : list krow :=
  let current_start := dt_sub (latest_date rs) thirty_days in
  filter (fun r => dt_ge (kdate r) current_start) rs.

Definition previous_window (rs : list krow) : list krow :=
  let current_start := dt_sub (latest_date rs) thirty_days in
  let previous_start := dt_sub current_start thirty_days in
  filter (fun r => dt_ge (kdate r) previous_start && dt_lt (kdate r) current_start) rs.

Definition zero_growth (metrics : list (string * Q)) : list (string * Q) :=
  let metrics := dict_set metrics "revenue_growth" 0 in
  let metrics := dict_set metrics "order_growth" 0 in
  let metrics := dict_set metrics "customer_growth" 0 in
  dict_set metrics "aov_growth" 0.

Definition get_kpi_metrics (data : kdata) : list (string * Q) :=
  match krows data with
  | [] =>
      [("total_revenue", 0); ("total_orders", 0); ("active_customers", 0);
       ("avg_order_value", 0); ("revenue_growth", 0); ("order_growth", 0);
       ("customer_growth", 0); ("aov_growth", 0)]
  | _ =>
  let rows := krows data in
  let metrics := [] in
  let total_revenue := if has_revenue data then revenue_sum rows else 0 in
  let metrics := dict_set metrics "total_revenue" total_revenue in
  let total_orders := QofNat (List.length rows) in
  let metrics := dict_set metrics "total_orders" total_orders in
  let metrics := dict_set metrics "active_customers"
                   (if has_customer data then QofNat (nunique rows) else 0) in
  let metrics := dict_set metrics "avg_order_value"
                   (if Qpos_b total_orders then total_revenue / total_orders else 0) in
  if has_date data then
    let current_data := current_window rows in
    let previous_data := previous_window rows in
    match previous_data, current_data with
    | _ :: _, _ :: _ =>
        let current_revenue := if has_revenue data then revenue_sum current_data else 0 in
        let previous_revenue := if has_revenue data then revenue_sum previous_data else 0 in
        let metrics := dict_set metrics "revenue_growth"
          (if Qpos_b previous_revenue
           then (current_revenue - previous_revenue) / previous_revenue * 100 else 0) in
        let current_orders := QofNat (List.length current_data) in
        let previous_orders := QofNat (List.length previous_data) in
        let metrics := dict_set metrics "order_growth"
          (if Qpos_b previous_orders
           then (current_orders - previous_orders) / previous_orders * 100 else 0) in
        let metrics :=
          if has_customer data then
            let current_customers := QofNat (nunique current_data) in
            let previous_customers := QofNat (nunique previous_data) in
            dict_set metrics "customer_growth"
              (if Qpos_b previous_customers
               then (current_customers - previous_customers) / previous_customers * 100
               else 0)
          else dict_set metrics "customer_growth" 0 in
        let current_aov :=
          if Qpos_b current_orders then current_revenue / current_orders else 0 in
        let previous_aov :=
          if Qpos_b previous_orders then previous_revenue / previous_orders else 0 in
        dict_set metrics "aov_growth"
          (if Qpos_b previous_aov
           then (current_aov - previous_aov) / previous_aov * 100 else 0)
    | _, _ => zero_growth metrics
    end
  else zero_growth metrics
  end.

Close Scope Q_scope.

(** ** Concrete data, aggregates and helpers used by the statements *)

(** What [get_table_data] returns, for every session and argument. *)
Definition table_data_outcome (raw : db -> string -> engine_outcome) (w : world)
    (t : string) (lim : option limit_arg) : dataframe :=
  if aborted w then empty_df
  else match run_stmt raw (working w) (table_query t lim) PNone with
       | EOk _ (RRows cols rows) => mkDF cols rows
       | _ => empty_df
       end.

(** The value a metric query yields, if it runs. *)
Definition query_metric (raw : db -> string -> engine_outcome) (d : db) (q : stmt)
  : option value :=
  match run_stmt raw d q PNone with
  | EOk _ r => Some (or_zero (scalar r))
  | EErr _ => None
  end.

(** The five metrics, each with its own query's value, when all of them
    run; the empty mapping otherwise. *)
Definition metrics_if_all_run (raw : db -> string -> engine_outcome) (d : db)
  : list (string * value) :=
  match query_metric raw d q_active_customers, query_metric raw d q_total_revenue,
        query_metric raw d q_low_stock_items, query_metric raw d q_total_employees,
        query_metric raw d q_active_projects with
  | Some a, Some b, Some c, Some e, Some f =>
      [("active_customers", a); ("total_revenue", b); ("low_stock_items", c);
       ("total_employees", e); ("active_projects", f)]
  | _, _, _, _, _ => []
  end.

(** An engine that refuses every free-form statement (used for concrete
    runs, which issue none). *)
Definition no_raw_sql : db -> string -> engine_outcome :=
  fun _ _ => EErr "syntax error".

Definition metric_queries : list (string * stmt) :=
  [("active_customers", q_active_customers); ("total_revenue", q_total_revenue);
   ("low_stock_items", q_low_stock_items); ("total_employees", q_total_employees);
   ("active_projects", q_active_projects)].

(** [current_stock <= reorder_point] is TRUE for this row. *)
Definition is_low_stock (cols : list string) (row : list value) : bool :=
  match cell cols row "current_stock", cell cols row "reorder_point" with
  | Some (VInt a), Some (VInt b) => Z.leb a b
  | Some x, Some y =>
      match num_parts x, num_parts y with
      | Some (a, s), Some (b, t) => dec_le a s b t
      | _, _ => false
      end
  | _, _ => false
  end.

Definition inventory_cols : list string :=
  ["id"; "sku"; "product_name"; "category"; "current_stock"; "reorder_point"].

Definition item_LAP001 : list value :=
  [VInt 1; VStr "LAP-001"; VStr "Laptop Dell XPS"; VStr "Electronics"; VInt 25; VInt 10].
Definition item_CHR002 : list value :=
  [VInt 2; VStr "CHR-002"; VStr "Office Chair"; VStr "Furniture"; VInt 8; VInt 15].
Definition item_PRT003 : list value :=
  [VInt 3; VStr "PRT-003"; VStr "Printer HP LaserJet"; VStr "Electronics"; VInt 45; VInt 20].

(** The sample data of [insert_sample_data] (the columns the metrics read). *)
Definition sample_db : db :=
  [("customers", mkTable ["id"; "customer_id"; "status"]
       [[VInt 1; VStr "CUST-0001"; VStr "Active"];
        [VInt 2; VStr "CUST-0002"; VStr "Active"];
        [VInt 3; VStr "CUST-0003"; VStr "Prospect"]]);
   ("invoices", mkTable ["id"; "amount"; "status"]
       [[VInt 1; VDec 150000 2; VStr "Paid"]; [VInt 2; VDec 70000 2; VStr "Pending"]]);
   ("inventory", mkTable inventory_cols [item_LAP001; item_CHR002; item_PRT003]);
   ("employees", mkTable ["id"; "employee_id"; "status"]
       [[VInt 1; VStr "EMP-001"; VStr "Active"]; [VInt 2; VStr "EMP-002"; VStr "Active"];
        [VInt 3; VStr "EMP-003"; VStr "Active"]]);
   ("projects", mkTable ["id"; "project_name"; "status"]
       [[VInt 1; VStr "Website Redesign"; VStr "In Progress"];
        [VInt 2; VStr "Mobile App Development"; VStr "Planning"];
        [VInt 3; VStr "Database Migration"; VStr "Completed"]])].

Definition sample_world : world := mkWorld sample_db sample_db false [].

(** The sample database without its inventory table. *)
Definition no_inventory_world : world :=
  let d := filter (fun nt => negb (String.eqb (fst nt) "inventory")) sample_db in
  mkWorld d d false [].

Ltac metric_cases Hin :=
  simpl in Hin; repeat destruct Hin as [Hin|Hin];
  [ injection Hin as <- <- .. | contradiction ].

(** Witness data for C5: the sample run. *)
Definition sample_metrics : list (string * value) :=
  [("active_customers", VInt 2); ("total_revenue", VDec 150000 2);
   ("low_stock_items", VInt 1); ("total_employees", VInt 3);
   ("active_projects", VInt 2)].

Fixpoint dict_get {V} (d : list (string * V)) (k : string) : option V :=
  match d with
  | [] => None
  | (k', v) :: d' => if String.eqb k' k then Some v else dict_get d' k
  end.

Definition kpi_keys : list string :=
  ["total_revenue"; "total_orders"; "active_customers"; "avg_order_value";
   "revenue_growth"; "order_growth"; "customer_growth"; "aov_growth"].

(** The period aggregates of the growth rates, over a window [rs]. *)
Definition revenue_agg (data : kdata) (rs : list krow) : Q :=
  if has_revenue data then revenue_sum rs else 0.
Definition orders_agg (rs : list krow) : Q := QofNat (List.length rs).
Definition customers_agg (data : kdata) (rs : list krow) : Q :=
  if has_customer data then QofNat (nunique rs) else 0.
Definition aov_agg (data : kdata) (rs : list krow) : Q :=
  if Qpos_b (orders_agg rs) then (revenue_agg data rs / orders_agg rs)%Q else 0.

(** The growth policy: the percentage change when the previous aggregate is
    positive, exactly 0 when it is not. *)
Definition growth_ok (g cur prev : Q) : Prop :=
  ((0 < prev)%Q -> g = ((cur - prev) / prev * 100)%Q) /\
  ((prev <= 0)%Q -> g = 0%Q).

(** A refund (revenue -10) 40 days before a sale of 10. *)
Definition kpi_refund_data : kdata :=
  mkKData true true true
    [mkKRow (Some 0%Z) (-10) (Some 1%Z); mkKRow (Some (40 * 86400)%Z) 10 (Some 2%Z)].

Definition customers_cols : list string := ["id"; "name"].

(** A customers table holding five rows. *)
Definition five_customers_world : world :=
  let d := [("customers", mkTable customers_cols
              (map (fun i => [VInt (Z.of_nat i); VStr "Customer"]) (seq 1 5)))] in
  mkWorld d d false [].

(** [{"customers": [{"id": 1, "name": "Ann"}]}] *)
Definition ann_backup : json :=
  JObj [("customers", JArr [JObj [("id", JInt 1); ("name", JStr "Ann")]])].

Definition ann_world : world :=
  let d := [("customers", mkTable customers_cols [[VInt 1; VStr "Ann"]])] in
  mkWorld d d false [].

Definition empty_customers_world : world :=
  let d := [("customers", mkTable customers_cols [])] in
  mkWorld d d false [].

Definition rows_of (w : world) (t : string) : option (list (list value)) :=
  option_map trows (db_lookup (committed w) t).

(** ** Schema creation and sample data ([utils/database.py]) *)

(** [f"SELECT COUNT(star) FROM {table_name}"] *)
Definition count_sql (table_name : string) : string :=
  "SELECT COUNT(" ++ "*" ++ ") FROM " ++ table_name.

Fixpoint strip_prefix (p s : string) : option string :=
  match p, s with
  | EmptyString, _ => Some s
  | String a p', String b s' => if Ascii.eqb a b then strip_prefix p' s' else None
  | String _ _, EmptyString => None
  end.

(** An unquoted lower-case SQL identifier ([a-z0-9_]). *)
Definition is_plain_ident (s : string) : bool :=
  negb (String.eqb s "") &&
  forallb (fun c => let n := Ascii.nat_of_ascii c in
                    (Nat.leb 97 n && Nat.leb n 122) || (Nat.leb 48 n && Nat.leb n 57)
                    || Nat.eqb n 95)
          (list_ascii_of_string s).

(** The engine with the meaning of [SELECT COUNT(star) FROM t] for a table
    named by a plain identifier: its number of rows.  Every other text is
    left to [base]. *)
Definition counting_engine (base : db -> string -> engine_outcome)
  : db -> string -> engine_outcome :=
  fun d txt =>
    match strip_prefix (count_sql "") txt with
    | Some t =>
        if is_plain_ident t then
          match db_lookup d t with
          | Some tb => EOk d (RScalar (VInt (Z.of_nat (List.length (trows tb)))))
          | None => EErr ("relation " ++ t ++ " does not exist")
          end
        else base d txt
    | None => base d txt
    end.

(** The [CREATE TABLE IF NOT EXISTS] statements (whitespace normalised). *)
Definition users_ddl : string :=
  "CREATE TABLE IF NOT EXISTS users (id SERIAL PRIMARY KEY, username VARCHAR(50) UNIQUE NOT NULL, email VARCHAR(100) UNIQUE NOT NULL, password_hash VARCHAR(255) NOT NULL, full_name VARCHAR(100), role VARCHAR(20) DEFAULT 'User', is_active BOOLEAN DEFAULT TRUE, created_at TIMESTAMP DEFAULT CURRENT_TIMESTAMP, last_login TIMESTAMP);".
Definition accounts_ddl : string :=
  "CREATE TABLE IF NOT EXISTS chart_of_accounts (id SERIAL PRIMARY KEY, account_code VARCHAR(20) UNIQUE NOT NULL, account_name VARCHAR(100) NOT NULL, account_type VARCHAR(20) NOT NULL, balance DECIMAL(15,2) DEFAULT 0.00, is_active BOOLEAN DEFAULT TRUE, created_at TIMESTAMP DEFAULT CURRENT_TIMESTAMP);".
Definition invoices_ddl : string :=
  "CREATE TABLE IF NOT EXISTS invoices (id SERIAL PRIMARY KEY, invoice_number VARCHAR(20) UNIQUE NOT NULL, customer_name VARCHAR(100) NOT NULL, customer_email VARCHAR(100), amount DECIMAL(15,2) NOT NULL, invoice_date DATE NOT NULL, due_date DATE NOT NULL, status VARCHAR(20) DEFAULT 'Pending', description TEXT, created_by VARCHAR(50), created_at TIMESTAMP DEFAULT CURRENT_TIMESTAMP, updated_at TIMESTAMP DEFAULT CURRENT_TIMESTAMP);".
Definition expenses_ddl : string :=
  "CREATE TABLE IF NOT EXISTS expenses (id SERIAL PRIMARY KEY, expense_id VARCHAR(20) UNIQUE NOT NULL, category VARCHAR(50) NOT NULL, amount DECIMAL(15,2) NOT NULL, expense_date DATE NOT NULL, vendor VARCHAR(100), description TEXT, receipt_path VARCHAR(255), status VARCHAR(20) DEFAULT 'Recorded', created_by VARCHAR(50), created_at TIMESTAMP DEFAULT CURRENT_TIMESTAMP);".
Definition transactions_ddl : string :=
  "CREATE TABLE IF NOT EXISTS financial_transactions (id SERIAL PRIMARY KEY, transaction_date DATE NOT NULL, description TEXT NOT NULL, debit_amount DECIMAL(15,2) DEFAULT 0.00, credit_amount DECIMAL(15,2) DEFAULT 0.00, account_code VARCHAR(20), reference_type VARCHAR(20), reference_id INTEGER, created_by VARCHAR(50), created_at TIMESTAMP DEFAULT CURRENT_TIMESTAMP);".
Definition customers_ddl : string :=
  "CREATE TABLE IF NOT EXISTS customers (id SERIAL PRIMARY KEY, customer_id VARCHAR(20) UNIQUE NOT NULL, name VARCHAR(100) NOT NULL, email VARCHAR(100), phone VARCHAR(20), company VARCHAR(100), industry VARCHAR(50), status VARCHAR(20) DEFAULT 'Active', source VARCHAR(50), total_value DECIMAL(15,2) DEFAULT 0.00, notes TEXT, created_at TIMESTAMP DEFAULT CURRENT_TIMESTAMP, last_contact DATE);".
Definition leads_ddl : string :=
  "CREATE TABLE IF NOT EXISTS leads (id SERIAL PRIMARY KEY, lead_id VARCHAR(20) UNIQUE NOT NULL, name VARCHAR(100) NOT NULL, email VARCHAR(100), phone VARCHAR(20), company VARCHAR(100), source VARCHAR(50), score INTEGER DEFAULT 0, interest_level VARCHAR(20), status VARCHAR(20) DEFAULT 'New', notes TEXT, created_at TIMESTAMP DEFAULT CURRENT_TIMESTAMP, last_contact DATE);".
Definition deals_ddl : string :=
  "CREATE TABLE IF NOT EXISTS deals (id SERIAL PRIMARY KEY, deal_name VARCHAR(100) NOT NULL, customer_id INTEGER REFERENCES customers(id), value DECIMAL(15,2) NOT NULL, stage VARCHAR(20) NOT NULL, probability INTEGER DEFAULT 0, close_date DATE, sales_rep VARCHAR(50), notes TEXT, created_at TIMESTAMP DEFAULT CURRENT_TIMESTAMP, updated_at TIMESTAMP DEFAULT CURRENT_TIMESTAMP);".
Definition activities_ddl : string :=
  "CREATE TABLE IF NOT EXISTS sales_activities (id SERIAL PRIMARY KEY, activity_date DATE NOT NULL, activity_type VARCHAR(50) NOT NULL, description TEXT NOT NULL, related_to VARCHAR(20), related_id INTEGER, sales_rep VARCHAR(50), notes TEXT, created_at TIMESTAMP DEFAULT CURRENT_TIMESTAMP);".
Definition inventory_ddl : string :=
  "CREATE TABLE IF NOT EXISTS inventory (id SERIAL PRIMARY KEY, sku VARCHAR(50) UNIQUE NOT NULL, product_name VARCHAR(100) NOT NULL, category VARCHAR(50), current_stock INTEGER DEFAULT 0, reorder_point INTEGER DEFAULT 0, unit_cost DECIMAL(10,2) DEFAULT 0.00, unit_price DECIMAL(10,2) DEFAULT 0.00, supplier VARCHAR(100), location VARCHAR(100), is_active BOOLEAN DEFAULT TRUE, last_updated TIMESTAMP DEFAULT CURRENT_TIMESTAMP);".
Definition purchase_orders_ddl : string :=
  "CREATE TABLE IF NOT EXISTS purchase_orders (id SERIAL PRIMARY KEY, po_number VARCHAR(20) UNIQUE NOT NULL, supplier VARCHAR(100) NOT NULL, order_date DATE NOT NULL, expected_date DATE, total_amount DECIMAL(15,2) NOT NULL, status VARCHAR(20) DEFAULT 'Pending', notes TEXT, created_by VARCHAR(50), created_at TIMESTAMP DEFAULT CURRENT_TIMESTAMP);".
Definition work_orders_ddl : string :=
  "CREATE TABLE IF NOT EXISTS work_orders (id SERIAL PRIMARY KEY, wo_number VARCHAR(20) UNIQUE NOT NULL, product_sku VARCHAR(50), quantity INTEGER NOT NULL, start_date DATE, due_date DATE, status VARCHAR(20) DEFAULT 'Planned', priority VARCHAR(20) DEFAULT 'Medium', assigned_to VARCHAR(50), notes TEXT, created_at TIMESTAMP DEFAULT CURRENT_TIMESTAMP, updated_at TIMESTAMP DEFAULT CURRENT_TIMESTAMP);".
Definition employees_ddl : string :=
  "CREATE TABLE IF NOT EXISTS employees (id SERIAL PRIMARY KEY, employee_id VARCHAR(20) UNIQUE NOT NULL, first_name VARCHAR(50) NOT NULL, last_name VARCHAR(50) NOT NULL, email VARCHAR(100) UNIQUE, phone VARCHAR(20), department VARCHAR(50), position VARCHAR(100), hire_date DATE, salary DECIMAL(12,2), status VARCHAR(20) DEFAULT 'Active', manager_id INTEGER REFERENCES employees(id), created_at TIMESTAMP DEFAULT CURRENT_TIMESTAMP);".
Definition job_postings_ddl : string :=
  "CREATE TABLE IF NOT EXISTS job_postings (id SERIAL PRIMARY KEY, job_title VARCHAR(100) NOT NULL, department VARCHAR(50), location VARCHAR(100), job_type VARCHAR(20) DEFAULT 'Full-time', salary_min DECIMAL(12,2), salary_max DECIMAL(12,2), description TEXT, requirements TEXT, status VARCHAR(20) DEFAULT 'Open', posted_date DATE DEFAULT CURRENT_DATE, closing_date DATE, created_by VARCHAR(50));".
Definition leave_requests_ddl : string :=
  "CREATE TABLE IF NOT EXISTS leave_requests (id SERIAL PRIMARY KEY, employee_id INTEGER REFERENCES employees(id), leave_type VARCHAR(50) NOT NULL, start_date DATE NOT NULL, end_date DATE NOT NULL, days_requested INTEGER NOT NULL, reason TEXT, status VARCHAR(20) DEFAULT 'Pending', approved_by VARCHAR(50), approved_date DATE, created_at TIMESTAMP DEFAULT CURRENT_TIMESTAMP);".
Definition projects_ddl : string :=
  "CREATE TABLE IF NOT EXISTS projects (id SERIAL PRIMARY KEY, project_name VARCHAR(100) NOT NULL, description TEXT, start_date DATE, due_date DATE, status VARCHAR(20) DEFAULT 'Planning', progress INTEGER DEFAULT 0, budget DECIMAL(15,2), team_size INTEGER DEFAULT 0, project_manager VARCHAR(50), client VARCHAR(100), priority VARCHAR(20) DEFAULT 'Medium', created_at TIMESTAMP DEFAULT CURRENT_TIMESTAMP, updated_at TIMESTAMP DEFAULT CURRENT_TIMESTAMP);".
Definition audit_ddl : string :=
  "CREATE TABLE IF NOT EXISTS audit_log (id SERIAL PRIMARY KEY, table_name VARCHAR(50) NOT NULL, record_id INTEGER NOT NULL, action VARCHAR(20) NOT NULL, old_values JSONB, new_values JSONB, changed_by VARCHAR(50), changed_at TIMESTAMP DEFAULT CURRENT_TIMESTAMP);".

(** Every DDL statement, in the order [initialize_database] issues them. *)
Definition all_ddl : list string :=
  [users_ddl; accounts_ddl; invoices_ddl; expenses_ddl; transactions_ddl;
   customers_ddl; leads_ddl; deals_ddl; activities_ddl;
   inventory_ddl; purchase_orders_ddl; work_orders_ddl;
   employees_ddl; job_postings_ddl; leave_requests_ddl;
   projects_ddl; audit_ddl].

(** Decimal text of a natural number. *)
Fixpoint nat_digits (fuel n : nat) (acc : string) : string :=
  match fuel with
  | O => acc
  | S f =>
      let acc' := String (Ascii.ascii_of_nat (48 + n mod 10)) acc in
      if Nat.ltb n 10 then acc' else nat_digits f (n / 10) acc'
  end.

Definition string_of_nat (n : nat) : string := nat_digits (S n) n "".

(** [VALUES (:p1, :p2, ...)] *)
Definition named_placeholders (k : nat) : list placeholder :=
  map (fun i => PhNamed ("p" ++ string_of_nat (S i))) (seq 0 k).

(** [{f'p{i+1}': row[i] for i in range(len(row))}] *)
Definition named_params (row : list value) : params :=
  PDict (combine (map (fun i => "p" ++ string_of_nat (S i)) (seq 0 (List.length row))) row).

(** The sample rows.  A Python float bound to a DECIMAL column is stored as
    that DECIMAL at the column's scale 2, written [VDec]. *)
Definition sample_customer_cols : list string :=
  ["customer_id"; "name"; "email"; "phone"; "company"; "industry"; "status"; "source";
   "total_value"; "notes"].
Definition customers_data : list (list value) :=
  [[VStr "CUST-0001"; VStr "John Smith"; VStr "john@techcorp.com"; VStr "+234-801-123-4567";
    VStr "TechCorp Ltd"; VStr "Technology"; VStr "Active"; VStr "Website"; VDec 1500000 2;
    VStr "Key decision maker"];
   [VStr "CUST-0002"; VStr "Sarah Johnson"; VStr "sarah@financeplus.com"; VStr "+234-802-234-5678";
    VStr "FinancePlus"; VStr "Finance"; VStr "Active"; VStr "Referral"; VDec 2200000 2;
    VStr "Long-term partnership potential"];
   [VStr "CUST-0003"; VStr "Mike Davis"; VStr "mike@healthsolutions.com"; VStr "+234-803-345-6789";
    VStr "Health Solutions"; VStr "Healthcare"; VStr "Prospect"; VStr "Cold Call"; VDec 0 2;
    VStr "Interested in Q2 implementation"]].

Definition sample_account_cols : list string :=
  ["account_code"; "account_name"; "account_type"; "balance"].
Definition accounts_data : list (list value) :=
  [[VStr "1000"; VStr "Cash"; VStr "Assets"; VDec 2500000 2];
   [VStr "1100"; VStr "Accounts Receivable"; VStr "Assets"; VDec 1500000 2];
   [VStr "1200"; VStr "Inventory"; VStr "Assets"; VDec 3000000 2];
   [VStr "2000"; VStr "Accounts Payable"; VStr "Liabilities"; VDec 800000 2];
   [VStr "3000"; VStr "Owner Equity"; VStr "Equity"; VDec 5000000 2];
   [VStr "4000"; VStr "Sales Revenue"; VStr "Revenue"; VDec 4500000 2];
   [VStr "5000"; VStr "Cost of Goods Sold"; VStr "Expenses"; VDec 1800000 2];
   [VStr "5100"; VStr "Office Expenses"; VStr "Expenses"; VDec 320000 2]].

Definition sample_inventory_cols : list string :=
  ["sku"; "product_name"; "category"; "current_stock"; "reorder_point"; "unit_cost";
   "unit_price"; "supplier"; "location"].
Definition inventory_data : list (list value) :=
  [[VStr "LAP-001"; VStr "Laptop Dell XPS"; VStr "Electronics"; VInt 25; VInt 10;
    VDec 80000 2; VDec 120000 2; VStr "Dell Supplier"; VStr "Warehouse A"];
   [VStr "CHR-002"; VStr "Office Chair"; VStr "Furniture"; VInt 8; VInt 15;
    VDec 15000 2; VDec 25000 2; VStr "Furniture Plus"; VStr "Warehouse B"];
   [VStr "PRT-003"; VStr "Printer HP LaserJet"; VStr "Electronics"; VInt 45; VInt 20;
    VDec 30000 2; VDec 45000 2; VStr "HP Supplier"; VStr "Warehouse A"]].

Definition sample_employee_cols : list string :=
  ["employee_id"; "first_name"; "last_name"; "email"; "phone"; "department"; "position";
   "hire_date"; "salary"; "status"].
Definition employees_data : list (list value) :=
  [[VStr "EMP-001"; VStr "John"; VStr "Smith"; VStr "john.smith@company.com";
    VStr "+234-801-111-1111"; VStr "Engineering"; VStr "Senior Developer"; VStr "2023-01-15";
    VDec 7500000 2; VStr "Active"];
   [VStr "EMP-002"; VStr "Sarah"; VStr "Johnson"; VStr "sarah.johnson@company.com";
    VStr "+234-802-222-2222"; VStr "Sales"; VStr "Sales Manager"; VStr "2023-03-01";
    VDec 6500000 2; VStr "Active"];
   [VStr "EMP-003"; VStr "Mike"; VStr "Davis"; VStr "mike.davis@company.com";
    VStr "+234-803-333-3333"; VStr "Marketing"; VStr "Marketing Specialist"; VStr "2023-06-10";
    VDec 5500000 2; VStr "Active"]].

Definition sample_project_cols : list string :=
  ["project_name"; "description"; "start_date"; "due_date"; "status"; "progress"; "budget";
   "team_size"; "project_manager"; "client"].
Definition projects_data : list (list value) :=
  [[VStr "Website Redesign"; VStr "Complete overhaul of company website"; VStr "2024-01-01";
    VStr "2024-02-15"; VStr "In Progress"; VInt 75; VDec 1500000 2; VInt 4;
    VStr "Project Manager 1"; VStr "Internal"];
   [VStr "Mobile App Development"; VStr "Native mobile application"; VStr "2024-02-01";
    VStr "2024-04-30"; VStr "Planning"; VInt 25; VDec 5000000 2; VInt 6;
    VStr "Project Manager 2"; VStr "TechCorp Ltd"];
   [VStr "Database Migration"; VStr "Migrate legacy database to PostgreSQL"; VStr "2023-12-01";
    VStr "2024-01-20"; VStr "Completed"; VInt 100; VDec 800000 2; VInt 3;
    VStr "Project Manager 1"; VStr "Internal"]].

(** The five sample tables: name, INSERT column list, rows. *)
Definition sample_tables : list (string * list string * list (list value)) :=
  [("customers", sample_customer_cols, customers_data);
   ("chart_of_accounts", sample_account_cols, accounts_data);
   ("inventory", sample_inventory_cols, inventory_data);
   ("employees", sample_employee_cols, employees_data);
   ("projects", sample_project_cols, projects_data)].

(** [x > 0] on a query's scalar; [COUNT(star)] gives an integer. *)
Definition py_gt_zero (v : value) : M bool :=
  match v with
  | VInt z => ret (Z.ltb 0 z)
  | VNull => raise "TypeError: '>' not supported between instances of 'NoneType' and 'int'"
  | VStr _ => raise "TypeError: '>' not supported between instances of 'str' and 'int'"
  | VOther _ => raise "TypeError: '>' not supported between instances of this type and 'int'"
  | VDec u _ => ret (Z.ltb 0 u)
  end.

Section Schema.

Variable raw_engine : db -> string -> engine_outcome.

Fixpoint execute_all (queries : list string) : M unit :=
  match queries with
  | [] => ret tt
  | query :: rest => _ <- session_execute raw_engine (SRaw query) PNone ;; execute_all rest
  end.

(** Each [create_*] method executes its statements, then commits. *)
Definition create_users_table : M unit :=
  execute_all [users_ddl] ;;; session_commit.
Definition create_finance_tables : M unit :=
  execute_all [accounts_ddl; invoices_ddl; expenses_ddl; transactions_ddl] ;;; session_commit.
Definition create_sales_tables : M unit :=
  execute_all [customers_ddl; leads_ddl; deals_ddl; activities_ddl] ;;; session_commit.
Definition create_logistics_tables : M unit :=
  execute_all [inventory_ddl; purchase_orders_ddl; work_orders_ddl] ;;; session_commit.
Definition create_hr_tables : M unit :=
  execute_all [employees_ddl; job_postings_ddl; leave_requests_ddl] ;;; session_commit.
Definition create_projects_table : M unit :=
  execute_all [projects_ddl] ;;; session_commit.
Definition create_audit_log_table : M unit :=
  execute_all [audit_ddl] ;;; session_commit.

(** [for row in rows: self.session.execute(text(query), params)] *)
Fixpoint insert_sample_rows (t : string) (cols : list string) (rows : list (list value))
  : M unit :=
  match rows with
  | [] => ret tt
  | row :: rest =>
      _ <- session_execute raw_engine
             (SInsert t cols (named_placeholders (List.length cols))) (named_params row) ;;
      insert_sample_rows t cols rest
  end.

Fixpoint insert_sample_tables (ts : list (string * list string * list (list value))) : M unit :=
  match ts with
  | [] => ret tt
  | (t, cols, rows) :: rest => insert_sample_rows t cols rows ;;; insert_sample_tables rest
  end.

(** [DatabaseManager.insert_sample_data] (its [print] output is not shown
    in the page). *)
Definition insert_sample_data : M unit :=
  try_except
    (result <- session_execute raw_engine (SRaw (count_sql "customers")) PNone ;;
     has_data <- py_gt_zero (scalar result) ;;
     (if has_data then ret tt
      else insert_sample_tables sample_tables ;;; session_commit))
    (fun _ => session_rollback).

(** [DatabaseManager.initialize_database] *)
Definition DatabaseManager_initialize_database : M bool :=
  try_except
    (create_users_table ;;; create_finance_tables ;;; create_sales_tables ;;;
     create_logistics_tables ;;; create_hr_tables ;;; create_projects_table ;;;
     create_audit_log_table ;;; insert_sample_data ;;; ret true)
    (fun e => st_show ("Database initialization failed: " ++ e) ;;; ret false).

(** The module-level [initialize_database]: [with DatabaseManager() as db]. *)
Definition initialize_database : M bool :=
  with_connection DatabaseManager_initialize_database.

End Schema.

(** ** The dashboard's metric cards ([app.py]) *)

(** A card [st.metric(label, text)]: the value it renders (with [str] or
    [f"${v:,.2f}"]), or a fixed text.  The fixed delta texts are left out. *)
Inductive card : Type :=
| CardMetric (label : string) (shown : value)
| CardText (label text : string).

(** [metrics.get(k, 0)] *)
Definition metrics_get (metrics : list (string * value)) (k : string) : value :=
  match dict_get metrics k with Some v => v | None => VInt 0 end.

Definition dashboard_cards (metrics : list (string * value)) : M (list card) :=
  low <- py_gt_zero (metrics_get metrics "low_stock_items") ;;
  ret [CardMetric "Active Projects" (metrics_get metrics "active_projects");
       CardMetric "Total Revenue" (metrics_get metrics "total_revenue");
       CardMetric "Active Employees" (metrics_get metrics "total_employees");
       if low then CardMetric "Low Stock Items" (metrics_get metrics "low_stock_items")
       else CardText "Inventory Status" "Good"].

(** The "Business Overview" page. *)
Definition business_overview (raw : db -> string -> engine_outcome) : M (list card) :=
  metrics <- with_connection (get_business_metrics raw) ;;
  dashboard_cards metrics.

(** ** The whole backup and restore page ([show_database_backup]) *)

(** [import json] (line 300) makes [json] a local variable of the whole
    function; reading it before that line ran raises [UnboundLocalError]
    with this text (Python 3.11 and later). *)
Definition json_unbound_error : string :=
  "cannot access local variable 'json' where it is not associated with a value".

Definition restore_warning : string := "⚠️ Restore will overwrite existing data!".

(** The restore button's handler.  [upload] is what [json.loads] makes of the
    file: the document, or the text of its [JSONDecodeError]. *)
Definition restore_click (raw : db -> string -> engine_outcome) (json_bound : bool)
    (upload : json + string) : M unit :=
  if json_bound then
    match upload with
    | inl backup_data => _ <- restore_backup raw backup_data ;; ret tt
    | inr e => st_show ("Error reading backup file: " ++ e)
    end
  else st_show ("Error reading backup file: " ++ json_unbound_error).

(** One run of the page: the tables chosen, whether "Create Backup" was
    clicked, the uploaded file if any and whether "Restore from Backup" was
    clicked.  [json] is bound only when the backup branch reached
    [import json], i.e. produced a backup. *)
Definition show_database_backup (raw : db -> string -> engine_outcome)
    (backup_tables : list string) (backup_clicked : bool)
    (uploaded : option (json + string)) (restore_clicked : bool) : M unit :=
  json_bound <- (if backup_clicked then
                   (b <- create_backup raw backup_tables ;;
                    ret (match b with Some _ => true | None => false end))
                 else ret false) ;;
  st_show restore_warning ;;;
  match uploaded with
  | Some upload => if restore_clicked then restore_click raw json_bound upload else ret tt
  | None => ret tt
  end.

(** ** The table browser's page count ([show_database_admin]) *)

(** [total_pages = (total_count + page_size - 1) // page_size] *)
Definition total_pages (total_count page_size : nat) : nat :=
  (total_count + page_size - 1) / page_size.

(** The rows the browser shows on page [page_num]. *)
Definition page_rows (raw : db -> string -> engine_outcome) (t : string)
    (page_size page_num : nat) (w : world) : list (list value) :=
  match snd (fetch_page raw t page_size page_num w) with
  | inl df => df_rows df
  | inr _ => []
  end.

(** ** Uploaded data ([utils/data_processor.py]) *)

(** [filter_data_by_date], on the transaction table of [get_kpi_metrics]
    (its [date] column already datetimes, so [pd.to_datetime] keeps it; a
    NaT row fails both comparisons). *)
Definition filter_data_by_date (data : kdata) (start_date end_date : Z) : kdata :=
  if has_date data then
    mkKData (has_date data) (has_revenue data) (has_customer data)
      (filter (fun r => match kdate r with
                        | Some d => Z.leb start_date d && Z.leb d end_date
                        | None => false
                        end) (krows data))
  else data.

(** *** [get_analytics_insights] *)

Open Scope Q_scope.

(** A row of the analysed table: [revenue], [customer] and [product]
    ([None] for a missing product).  Which of the columns [revenue],
    [date], [customer], [product] the table has is recorded by flags; the
    [date] values are not read beyond their presence. *)
Record irow : Type := mkIRow {
  irevenue : Q;
  icustomer : Z;
  iproduct : option string
}.

Record idata : Type := mkIData {
  ihas_revenue : bool;
  ihas_date : bool;
  ihas_customer : bool;
  ihas_product : bool;
  irows : list irow
}.

(** A performance metric: [f"${x:,.2f}"], [f"${x:.2f}"] or a count. *)
Inductive pmetric : Type :=
| PmDollarsGrouped (x : Q)
| PmDollars (x : Q)
| PmCount (n : nat).

Record insights : Type := mkInsights {
  key_insights : list string;
  performance_metrics : list (string * pmetric)
}.

(** [value_counts()] before its ordering: each product with its number of
    rows, missing values left out. *)
Fixpoint vc_add (p : string) (acc : list (string * nat)) : list (string * nat) :=
  match acc with
  | [] => [(p, 1%nat)]
  | (q, n) :: acc' => if String.eqb q p then (q, S n) :: acc' else (q, n) :: vc_add p acc'
  end.

Definition value_counts_raw (xs : list (option string)) : list (string * nat) :=
  fold_left (fun acc x => match x with Some p => vc_add p acc | None => acc end) xs [].

Definition irevenue_sum (rs : list irow) : Q :=
  fold_right (fun r acc => irevenue r + acc) 0 rs.

(** [data.head(k)] / [data.tail(k)] *)
Definition head_rows {A} (k : nat) (l : list A) : list A := firstn k l.
Definition tail_rows {A} (k : nat) (l : list A) : list A := skipn (List.length l - k) l.

(** [x > y] on Q. *)
Definition Qgt_b (x y : Q) : bool := negb (Qle_bool x y).

Section Insights.

(** The order [value_counts] puts the counted values in (by decreasing
    count; pandas leaves the order of equal counts unspecified). *)
Variable vc_order : list (string * nat) -> list (string * nat).

Definition get_analytics_insights (data : idata) : insights + string :=
  match irows data with
  | [] => inl (mkInsights ["No data available for analysis"] [])
  | rows =>
      let '(ki, pm) :=
        if ihas_revenue data then
          let total_revenue := irevenue_sum rows in
          let avg_revenue := total_revenue / QofNat (List.length rows) in
          let pm := dict_set [] "total_revenue" (PmDollarsGrouped total_revenue) in
          let pm := dict_set pm "average_transaction" (PmDollars avg_revenue) in
          let ki := if Qgt_b total_revenue 100000
                    then ["Strong revenue performance with total exceeding $100K"] else [] in
          let ki :=
            if ihas_date data then
              let recent_data := irevenue_sum (tail_rows 30 rows) in
              let earlier_data := irevenue_sum (head_rows 30 rows) in
              if Qgt_b recent_data earlier_data
              then app ki ["Revenue trending upward over time"]
              else app ki ["Revenue may need attention - showing decline"]
            else ki in
          (ki, pm)
        else ([], []) in
      let '(ki, pm) :=
        if ihas_customer data then
          let unique_customers := List.length (nodup Z.eq_dec (map icustomer rows)) in
          let pm := dict_set pm "unique_customers" (PmCount unique_customers) in
          (if Nat.ltb 50 unique_customers
           then app ki ["Good customer diversity with 50+ unique customers"] else ki, pm)
        else (ki, pm) in
      if ihas_product data then
        match vc_order (value_counts_raw (map iproduct rows)) with
        | [] => inr "IndexError: index 0 is out of bounds for axis 0 with size 0"
        | (top_product, _) :: _ =>
            inl (mkInsights (app ki ["Top selling product: " ++ top_product]) pm)
        end
      else inl (mkInsights ki pm)
  end.

End Insights.

(** *** DataFrames of uploaded files *)

(** A cell: a number, a text, a datetime (seconds), or missing
    ([NaN], [None], [NaT]). *)
Inductive pv : Type :=
| PvNum (q : Q)
| PvText (s : string)
| PvTime (t : Z).

Definition cellp : Type := option pv.

Inductive dtype : Type := DtNumeric | DtObject | DtDatetime.

(** Columns (name and dtype, names distinct) and rows. *)
Record frame : Type := mkFrame {
  fcols : list (string * dtype);
  frows : list (list cellp)
}.

Definition is_missing (c : cellp) : bool :=
  match c with None => true | Some _ => false end.

(** Cell equality as [duplicated] sees it: missing equals missing. *)
Definition pv_eqb (a b : pv) : bool :=
  match a, b with
  | PvNum x, PvNum y => Qeq_bool x y
  | PvText x, PvText y => String.eqb x y
  | PvTime x, PvTime y => Z.eqb x y
  | _, _ => false
  end.

Definition cell_eqb (a b : cellp) : bool :=
  match a, b with
  | None, None => true
  | Some x, Some y => pv_eqb x y
  | _, _ => false
  end.

Fixpoint row_eqb (r s : list cellp) : bool :=
  match r, s with
  | [], [] => true
  | x :: r', y :: s' => cell_eqb x y && row_eqb r' s'
  | _, _ => false
  end.

(** [df.duplicated().sum()]: the rows equal to an earlier row. *)
Fixpoint count_duplicated_from (seen rows : list (list cellp)) : nat :=
  match rows with
  | [] => O
  | r :: rs =>
      if existsb (row_eqb r) seen then S (count_duplicated_from (r :: seen) rs)
      else count_duplicated_from (r :: seen) rs
  end.

Definition count_duplicated (rows : list (list cellp)) : nat := count_duplicated_from [] rows.

(** [df.drop_duplicates()]: keeps the first of equal rows. *)
Fixpoint drop_duplicates_from (seen rows : list (list cellp)) : list (list cellp) :=
  match rows with
  | [] => []
  | r :: rs =>
      if existsb (row_eqb r) seen then drop_duplicates_from (r :: seen) rs
      else r :: drop_duplicates_from (r :: seen) rs
  end.

Definition drop_duplicates (rows : list (list cellp)) : list (list cellp) :=
  drop_duplicates_from [] rows.

(** [df.isnull().sum().sum()] *)
Definition count_missing (rows : list (list cellp)) : nat :=
  fold_right (fun r acc => (List.length (filter is_missing r) + acc)%nat) O rows.

(** [df.dropna()] *)
Definition dropna (rows : list (list cellp)) : list (list cellp) :=
  filter (fun r => forallb (fun c => negb (is_missing c)) r) rows.

(** [df[col]] for the [j]-th column. *)
Definition column (j : nat) (rows : list (list cellp)) : list cellp :=
  map (fun r => nth j r None) rows.

(** The columns with their positions. *)
Definition indexed_cols (df : frame) : list (nat * (string * dtype)) :=
  combine (seq 0 (List.length (fcols df))) (fcols df).

Fixpoint map_nth {A} (j : nat) (f : A -> A) (l : list A) {struct l} : list A :=
  match l, j with
  | [], _ => []
  | x :: l', O => f x :: l'
  | x :: l', S j' => x :: map_nth j' f l'
  end.

(** [df[col] = f(df[col])] for an element-wise [f]. *)
Definition map_column (j : nat) (f : cellp -> cellp) (rows : list (list cellp))
  : list (list cellp) :=
  map (map_nth j f) rows.

(** *** [validate_data] *)

Inductive issue : Type :=
| MissingValues (count : nat) (percentage : Q)
| DuplicateRows (count : nat) (percentage : Q)
| NumericAsText (col : string).

Record validation : Type := mkValidation {
  missing_values : nat;
  duplicates : nat;
  quality_score : Q;
  issues : list issue
}.

Section Validation.

(** Whether [pd.to_numeric(df[col], errors='raise')] succeeds. *)
Variable to_numeric_ok : list cellp -> bool.

Definition validate_data (df : frame) : validation :=
  let n := List.length (frows df) in
  let missing_count := count_missing (frows df) in
  let '(score, iss) :=
    if Nat.ltb 0 missing_count then
      let missing_percentage :=
        QofNat missing_count / QofNat (n * List.length (fcols df)) * 100 in
      (100 - missing_percentage, [MissingValues missing_count missing_percentage])
    else (100, []) in
  let duplicate_count := count_duplicated (frows df) in
  let '(score, iss) :=
    if Nat.ltb 0 duplicate_count then
      let duplicate_percentage := QofNat duplicate_count / QofNat n * 100 in
      (score - duplicate_percentage,
       app iss [DuplicateRows duplicate_count duplicate_percentage])
    else (score, iss) in
  let iss := app iss
    (flat_map (fun jc => match snd (snd jc) with
                         | DtObject =>
                             if to_numeric_ok (column (fst jc) (frows df))
                             then [NumericAsText (fst (snd jc))] else []
                         | _ => []
                         end) (indexed_cols df)) in
  mkValidation missing_count duplicate_count (if Qle_bool score 0 then 0 else score) iss.

End Validation.

(** *** [clean_data] *)

(** [fillna(0)]; a datetime column with a gap becomes an object column. *)
Definition fill_zero (c : cellp) : cellp :=
  match c with None => Some (PvNum 0) | _ => c end.

Definition fillna_zero (df : frame) : frame :=
  mkFrame
    (map (fun jc => let '(j, (name, dt)) := jc in
                    (name, match dt with
                           | DtDatetime =>
                               if existsb is_missing (column j (frows df))
                               then DtObject else DtDatetime
                           | _ => dt
                           end))
         (indexed_cols df))
    (map (map fill_zero) (frows df)).

(** [df[col].mean()]: missing values skipped, [NaN] (here [None]) when there
    is no value. *)
Definition col_mean (vals : list cellp) : option Q :=
  let xs := flat_map (fun c => match c with Some (PvNum q) => [q] | _ => [] end) vals in
  match xs with
  | [] => None
  | _ => Some (fold_right Qplus 0 xs / QofNat (List.length xs))
  end.

Definition fill_with (m : Q) (c : cellp) : cellp :=
  match c with None => Some (PvNum m) | _ => c end.

(** [for col in numeric_columns: df[col] = df[col].fillna(df[col].mean())] *)
Fixpoint fill_means_from (cols : list (nat * (string * dtype))) (rows : list (list cellp))
  : list (list cellp) :=
  match cols with
  | [] => rows
  | (j, (_, DtNumeric)) :: rest =>
      let rows' := match col_mean (column j rows) with
                   | Some m => map_column j (fill_with m) rows
                   | None => rows
                   end in
      fill_means_from rest rows'
  | _ :: rest => fill_means_from rest rows
  end.

Definition fill_means (df : frame) : frame :=
  mkFrame (fcols df) (fill_means_from (indexed_cols df) (frows df)).

(** [str.lower()] on ASCII text. *)
Definition ascii_lower (c : ascii) : ascii :=
  let n := Ascii.nat_of_ascii c in
  if Nat.leb 65 n && Nat.leb n 90 then Ascii.ascii_of_nat (n + 32) else c.

Definition py_lower (s : string) : string :=
  string_of_list_ascii (map ascii_lower (list_ascii_of_string s)).

(** Python's [needle in hay] on strings. *)
Fixpoint py_contains (needle hay : string) : bool :=
  String.prefix needle hay ||
  match hay with
  | EmptyString => false
  | String _ hay' => py_contains needle hay'
  end.

(** [if 'date' in col.lower() or 'time' in col.lower()] *)
Definition is_date_name (col : string) : bool :=
  py_contains "date" (py_lower col) || py_contains "time" (py_lower col).

Definition set_dtype (j : nat) (d : dtype) (cols : list (string * dtype))
  : list (string * dtype) :=
  map_nth j (fun c => (fst c, d)) cols.

Section Cleaning.

(** [pd.to_datetime(df[col], errors='coerce')]: from the column pandas infers
    a format and converts each cell with it ([NaT] where a cell does not
    parse), or raises ([None]). *)
Variable to_datetime_coerce : list cellp -> option (cellp -> cellp).

Fixpoint standardize_from (cols : list (nat * (string * dtype))) (df : frame) : frame :=
  match cols with
  | [] => df
  | (j, (name, _)) :: rest =>
      let df' :=
        if is_date_name name then
          match to_datetime_coerce (column j (frows df)) with
          | Some conv => mkFrame (set_dtype j DtDatetime (fcols df)) (map_column j conv (frows df))
          | None => df
          end
        else df in
      standardize_from rest df'
  end.

Definition standardize_date_columns (df : frame) : frame :=
  standardize_from (indexed_cols df) df.

Definition clean_data (df : frame) (remove_duplicates : bool) (handle_missing : string)
    (standardize_dates : bool) : frame :=
  let cleaned_df := df in
  let cleaned_df :=
    if remove_duplicates then mkFrame (fcols cleaned_df) (drop_duplicates (frows cleaned_df))
    else cleaned_df in
  let cleaned_df :=
    if String.eqb handle_missing "Remove rows" then
      mkFrame (fcols cleaned_df) (dropna (frows cleaned_df))
    else if String.eqb handle_missing "Fill with 0" then fillna_zero cleaned_df
    else if String.eqb handle_missing "Fill with mean" then fill_means cleaned_df
    else cleaned_df in
  if standardize_dates then standardize_date_columns cleaned_df else cleaned_df.

End Cleaning.

Close Scope Q_scope.

(** *** [process_uploaded_file] *)

(** [str.isspace()] on an ASCII character. *)
Definition is_py_space (c : ascii) : bool :=
  let n := Ascii.nat_of_ascii c in
  (Nat.leb 9 n && Nat.leb n 13) || (Nat.leb 28 n && Nat.leb n 32).

Fixpoint drop_spaces (l : list ascii) : list ascii :=
  match l with
  | c :: l' => if is_py_space c then drop_spaces l' else l
  | [] => []
  end.

(** [str.strip()] *)
Definition py_strip (s : string) : string :=
  string_of_list_ascii (rev (drop_spaces (rev (drop_spaces (list_ascii_of_string s))))).

(** [name.split('.')[-1]] *)
Fixpoint take_until_dot (l : list ascii) : list ascii :=
  match l with
  | c :: l' => if Ascii.eqb c "." then [] else c :: take_until_dot l'
  | [] => []
  end.

Definition last_segment (s : string) : string :=
  string_of_list_ascii (rev (take_until_dot (rev (list_ascii_of_string s)))).

(** [df.columns = df.columns.str.strip()] *)
Definition strip_columns (df : frame) : frame :=
  mkFrame (map (fun c => (py_strip (fst c), snd c)) (fcols df)) (frows df).

Inductive read_error : Type :=
| UnicodeDecodeError (msg : string)
| OtherReadError (msg : string).

Definition read_error_msg (e : read_error) : string :=
  match e with UnicodeDecodeError m => m | OtherReadError m => m end.

Record uploaded_file : Type := mkUploaded {
  uf_name : string;
  uf_content : string
}.

Section Upload.

(** [pd.read_csv(f, encoding=enc)] and [pd.read_excel(f, engine='openpyxl')]. *)
Variable read_csv : string -> string -> frame + read_error.
Variable read_excel : string -> frame + string.

Definition process_uploaded_file (uploaded_file : uploaded_file) : M (option frame) :=
  let file_extension := py_lower (last_segment (uf_name uploaded_file)) in
  let failed e := st_show ("Error processing file: " ++ e) ;;; ret None in
  if String.eqb file_extension "csv" then
    match read_csv "utf-8" (uf_content uploaded_file) with
    | inl df => ret (Some (strip_columns df))
    | inr (UnicodeDecodeError _) =>
        match read_csv "latin1" (uf_content uploaded_file) with
        | inl df => ret (Some (strip_columns df))
        | inr e => failed (read_error_msg e)
        end
    | inr (OtherReadError e) => failed e
    end
  else if String.eqb file_extension "xlsx" || String.eqb file_extension "xls" then
    match read_excel (uf_content uploaded_file) with
    | inl df => ret (Some (strip_columns df))
    | inr e => failed e
    end
  else ret None.

End Upload.

(** Rows whose product is [p]. *)
Definition product_count (rows : list irow) (p : string) : nat :=
  List.length (filter (fun x => match x with Some q => String.eqb q p | None => false end)
                      (map iproduct rows)).

(** The counts a [value_counts] list holds for [q]. *)
Definition vc_count (acc : list (string * nat)) (q : string) : nat :=
  fold_right (fun kv s => if String.eqb (fst kv) q then (snd kv + s)%nat else s) O acc.

(** A [value_counts] order: by decreasing count (stable merge sort). *)
Module CountDesc <: Orders.TotalLeBool'.
Definition t : Type := (string * nat)%type.
Definition leb (x y : t) : bool := Nat.leb (snd y) (snd x).
Infix "<=?" := leb (at level 70, no associativity).
Lemma leb_total : forall a1 a2, (a1 <=? a2) = true \/ (a2 <=? a1) = true.
Proof.
  intros a1 a2. unfold leb. destruct (Nat.leb_spec (snd a2) (snd a1)); [left; reflexivity|].
  right. apply Nat.leb_le. lia.
Qed.
End CountDesc.

Module CountSort := Mergesort.Sort CountDesc.

(** The free-form statements [qs] run one after the other on [d]: the
    database they leave, or [None] as soon as one fails. *)
Fixpoint run_raw_all (raw : db -> string -> engine_outcome) (d : db) (qs : list string)
  : option db :=
  match qs with
  | [] => Some d
  | q :: rest =>
      match raw d q with
      | EOk d' _ => run_raw_all raw d' rest
      | EErr _ => None
      end
  end.

(** The sample INSERTs of [insert_sample_data], run one after the other. *)
Fixpoint run_sample_rows (raw : db -> string -> engine_outcome) (d : db) (t : string)
    (cols : list string) (rows : list (list value)) : option db :=
  match rows with
  | [] => Some d
  | row :: rest =>
      match run_stmt raw d (SInsert t cols (named_placeholders (List.length cols)))
              (named_params row) with
      | EOk d' _ => run_sample_rows raw d' t cols rest
      | EErr _ => None
      end
  end.

Fixpoint run_sample_tables (raw : db -> string -> engine_outcome) (d : db)
    (ts : list (string * list string * list (list value))) : option db :=
  match ts with
  | [] => Some d
  | (t, cols, rows) :: rest =>
      match run_sample_rows raw d t cols rows with
      | Some d' => run_sample_tables raw d' rest
      | None => None
      end
  end.

(** The error PostgreSQL gives for any statement of an aborted transaction. *)
Definition aborted_msg : string :=
  "current transaction is aborted, commands ignored until end of transaction block".

(** Concrete inputs for the witnesses of the properties below. *)



(** Three sales with a product column: Widget twice, Gadget once. *)
Definition product_sales : idata :=
  mkIData false false false true
    [mkIRow 0 1 (Some "Widget"); mkIRow 0 2 (Some "Gadget"); mkIRow 0 3 (Some "Widget")].

Definition product_sales_insights : insights :=
  mkInsights ["Top selling product: Widget"] [].

(** A product column whose only value is missing. *)
Definition no_product_sales : idata :=
  mkIData false false false true [mkIRow 0 1 None].

(** An order table with a text date column and a numeric amount column with
    one missing value; its first and last rows are equal. *)
Definition orders_frame : frame :=
  mkFrame [("Order_Date", DtObject); ("amount", DtNumeric)]
    [[Some (PvText "2024-01-05"); Some (PvNum 10)];
     [Some (PvText "2024-01-06"); None];
     [Some (PvText "2024-01-05"); Some (PvNum 10)]].

(** A [pd.to_datetime(errors='coerce')] reading every text as the epoch. *)
Definition epoch_of_text (c : cellp) : cellp :=
  match c with
  | Some (PvText _) => Some (PvTime 0)
  | Some (PvTime t) => Some (PvTime t)
  | _ => None
  end.

Definition to_datetime_epoch (vals : list cellp) : option (cellp -> cellp) :=
  Some epoch_of_text.

(** A CSV reader whose table has the column name [" revenue "]. *)
Definition csv_padded_header (encoding content : string) : frame + read_error :=
  inl (mkFrame [(" revenue ", DtNumeric)] []).

Definition excel_unreadable (content : string) : frame + string :=
  inr "File is not a zip file".

(** *** The "Add New Account" form of [show_accounting_module]
    (modules/finance.py)

    On "Add Account" the form runs, inside [with get_database_connection()],
    [db.execute_query(query, (account_code, account_name, account_type, 0.0))]
    and then [st.success]; an exception is shown by [st.error].  The
    [st.rerun()] after [st.success] only restarts the script and is not
    modelled.  The last element of the tuple is the float [0.0], written
    [JInt 0]. *)
Definition account_insert : stmt :=
  SInsert "chart_of_accounts"
    ["account_code"; "account_name"; "account_type"; "balance"]
    [PhPercent; PhPercent; PhPercent; PhPercent].

Definition add_account_submit (raw : db -> string -> engine_outcome)
    (account_code account_name account_type : string) : M unit :=
  with_connection
    (try_except
       (execute_query raw account_insert
          (PList [JStr account_code; JStr account_name; JStr account_type; JInt 0]) ;;;
        st_show ("Account '" ++ account_name ++ "' added successfully!"))
       (fun e => st_show ("Error adding account: " ++ e))).

(** * Proofs *)

(** ** Session lemmas *)

Lemma session_execute_ok raw s p w w1 r :
  session_execute raw s p w = (w1, inl r) ->
  aborted w = false /\ aborted w1 = false /\ committed w1 = committed w /\
  ui_log w1 = ui_log w /\ run_stmt raw (working w) s p = EOk (working w1) r.
Proof.
  unfold session_execute. intros H.
  destruct (match p with PList (x :: _) => negb (is_mapping x) | _ => false end);
    [discriminate|].
  destruct (aborted w) eqn:Ha; [discriminate|].
  destruct (run_stmt raw (working w) s p) eqn:Hr; inversion H; subst; simpl; auto.
Qed.

Lemma session_execute_err raw s p w w1 e :
  session_execute raw s p w = (w1, inr e) ->
  committed w1 = committed w /\ ui_log w1 = ui_log w.
Proof.
  unfold session_execute. intros H.
  destruct (match p with PList (x :: _) => negb (is_mapping x) | _ => false end);
    [inversion H; subst; auto|].
  destruct (aborted w); [inversion H; subst; auto|].
  destruct (run_stmt raw (working w) s p); inversion H; subst; simpl; auto.
Qed.

Lemma get_table_data_spec raw w t lim :
  exists w', get_table_data raw t lim w = (w', inl (table_data_outcome raw w t lim))
             /\ committed w' = committed w.
Proof.
  unfold get_table_data, try_except, bind, table_data_outcome, session_execute.
  destruct (aborted w) eqn:Ha.
  - cbn -[run_stmt]. rewrite Ha. eexists; split; reflexivity.
  - destruct (run_stmt raw (working w) (table_query t lim) PNone) as [d r|e] eqn:Hr;
      [destruct r|]; cbn -[run_stmt]; rewrite ?Ha, ?Hr; eexists; split; reflexivity.
Qed.

Lemma run_select_all raw d t lim :
  run_stmt raw d (SSelectAll t lim) PNone =
  match db_lookup d t with
  | None => EErr ("relation " ++ t ++ " does not exist")
  | Some tb => match apply_limit lim (trows tb) with
               | inl rs => EOk d (RRows (tcols tb) rs)
               | inr e => EErr e
               end
  end.
Proof. reflexivity. Qed.

(** ** Lists: consecutive pages *)

Lemma NoDup_app_disjoint {A} (l1 l2 : list A) x :
  NoDup (l1 ++ l2) -> In x l1 -> In x l2 -> False.
Proof.
  induction l1 as [|y l1 IH]; simpl; intros Hnd Hin1 Hin2; [contradiction|].
  inversion Hnd as [|? ? Hy Hnd']; subst.
  destruct Hin1 as [<-|Hin1].
  - apply Hy, in_or_app; right; exact Hin2.
  - exact (IH Hnd' Hin1 Hin2).
Qed.

Lemma NoDup_skipn {A} n (l : list A) : NoDup l -> NoDup (skipn n l).
Proof.
  intros H. rewrite <- (firstn_skipn n l) in H. exact (NoDup_app_remove_l _ _ H).
Qed.

Lemma in_firstn_in {A} n (l : list A) x : In x (firstn n l) -> In x l.
Proof.
  intros H. rewrite <- (firstn_skipn n l). apply in_or_app. left; exact H.
Qed.

Lemma next_page_disjoint {A} (l : list A) s p x :
  (0 < p)%nat -> NoDup l ->
  In x (firstn s (skipn ((p - 1) * s) l)) ->
  In x (firstn s (skipn (p * s) l)) -> False.
Proof.
  intros Hp Hnd H1 H2.
  set (m := skipn ((p - 1) * s) l) in *.
  assert (Hm : skipn (p * s) l = skipn s m).
  { unfold m. rewrite skipn_skipn. f_equal. destruct p; [lia|]. simpl. lia. }
  rewrite Hm in H2.
  apply in_firstn_in in H2.
  assert (Hndm : NoDup (firstn s m ++ skipn s m)).
  { rewrite firstn_skipn. apply NoDup_skipn. exact Hnd. }
  exact (NoDup_app_disjoint _ _ x Hndm H1 H2).
Qed.

(** ** Claims about the table browser and the query executor *)

(** C9: [get_table_data] never lets an exception reach its caller: whatever
    the table name and the limit, it returns a DataFrame; when the query
    fails (unknown table, bad limit, failed transaction) the DataFrame is
    empty; when it succeeds without a limit it holds every row of the table
    under the table's column names. *)
Theorem get_table_data_never_raises (raw : db -> string -> engine_outcome)
    (w : world) (t : string) (lim : option limit_arg) :
  exists w' df,
    get_table_data raw t lim w = (w', inl df) /\
    ((aborted w = true \/
      exists e, run_stmt raw (working w) (table_query t lim) PNone = EErr e) ->
     df = empty_df) /\
    (forall tb, lim = None -> aborted w = false ->
     db_lookup (working w) t = Some tb -> df = mkDF (tcols tb) (trows tb)).
Proof.
  destruct (get_table_data_spec raw w t lim) as [w' [Hrun _]].
  exists w', (table_data_outcome raw w t lim). split; [exact Hrun|]. split.
  - unfold table_data_outcome. intros [Ha | [e He]].
    + rewrite Ha. reflexivity.
    + destruct (aborted w); [reflexivity|]. rewrite He. reflexivity.
  - intros tb -> Ha Htb. unfold table_data_outcome. rewrite Ha.
    unfold table_query. rewrite run_select_all, Htb. reflexivity.
Qed.

(** C6: the table browser's page [p] (size [s]) is fetched with offset
    [(p - 1) * s] by [SELECT * FROM t LIMIT s OFFSET (p - 1) * s]; it has at
    most [s] rows, and on an unchanged database page [p] and page [p + 1]
    share no row (rows being distinct records of the table). *)
Theorem fetch_page_bounded_disjoint (raw : db -> string -> engine_outcome)
    (w : world) (t : string) (s p : nat) (Hs : (0 < s)%nat) (Hp : (0 < p)%nat)
    (Hnd : forall tb, db_lookup (working w) t = Some tb -> NoDup (trows tb)) :
  page_offset s p = ((p - 1) * s)%nat /\
  table_query t (Some (LimText s (page_offset s p)))
    = SSelectAll t (Some (LimText s ((p - 1) * s))) /\
  exists w1 d1 w2 d2,
    fetch_page raw t s p w = (w1, inl d1) /\
    fetch_page raw t s (S p) w = (w2, inl d2) /\
    (List.length (df_rows d1) <= s)%nat /\
    (List.length (df_rows d2) <= s)%nat /\
    (forall x, In x (df_rows d1) -> In x (df_rows d2) -> False).
Proof.
  split; [reflexivity|]. split; [reflexivity|].
  unfold fetch_page.
  destruct (get_table_data_spec raw w t (Some (LimText s (page_offset s p))))
    as [w1 [H1 _]].
  destruct (get_table_data_spec raw w t (Some (LimText s (page_offset s (S p)))))
    as [w2 [H2 _]].
  do 4 eexists. split; [exact H1|]. split; [exact H2|].
  unfold table_data_outcome, table_query. simpl limit_truthy. cbv iota.
  rewrite !run_select_all.
  destruct (aborted w); [simpl; repeat split; [lia|lia|]; intros x []|].
  destruct (db_lookup (working w) t) as [tb|] eqn:Htb;
    [|simpl; repeat split; [lia|lia|]; intros x []].
  simpl. repeat split; try apply firstn_le_length.
  unfold page_offset. replace (S p - 1)%nat with p by lia.
  intros x Hx1 Hx2. exact (next_page_disjoint _ s p x Hp (Hnd tb eq_refl) Hx1 Hx2).
Qed.

(** C8: [execute_query] on a statement whose execution fails rolls the
    transaction back (the committed database is untouched and the session
    sees it again), shows the error text unchanged after the prefix
    ["Query execution error: "], and returns no result ([None]); on a
    statement that runs, it commits the transaction and returns the
    result. *)
Theorem execute_query_rollback_or_commit (raw : db -> string -> engine_outcome)
    (w : world) (q : stmt) (p : params) :
  let p' := if params_truthy p then p else PNone in
  match session_execute raw q p' w with
  | (_, inr e) =>
      execute_query raw q p w =
        (mkWorld (committed w) (committed w) false
           (ui_log w ++ ["Query execution error: " ++ e]), inl None)
  | (w1, inl r) =>
      execute_query raw q p w =
        (mkWorld (working w1) (working w1) false (ui_log w), inl (Some r))
  end.
Proof.
  intros p'.
  assert (Hsel : (if params_truthy p then session_execute raw q p
                  else session_execute raw q PNone) = session_execute raw q p').
  { unfold p'. destruct (params_truthy p); reflexivity. }
  unfold execute_query, try_except, bind. rewrite Hsel.
  destruct (session_execute raw q p' w) as [w1 [r|e]] eqn:He.
  - destruct (session_execute_ok _ _ _ _ _ _ He) as [_ [Ha1 [_ [Hl1 _]]]].
    unfold session_commit. rewrite Ha1. simpl. rewrite Hl1. reflexivity.
  - destruct (session_execute_err _ _ _ _ _ _ He) as [Hc1 Hl1].
    unfold session_rollback, st_show, ret. simpl. rewrite Hc1, Hl1. reflexivity.
Qed.

(** ** The business-metrics aggregator *)

Lemma run_count_pure raw d t c p d' r :
  run_stmt raw d (SCountWhere t c) p = EOk d' r -> d' = d.
Proof.
  simpl. destruct (db_lookup d t); [|discriminate].
  destruct (count_where _ _ _); intros H; inversion H; reflexivity.
Qed.

Lemma run_sum_pure raw d t col c p d' r :
  run_stmt raw d (SSumWhere t col c) p = EOk d' r -> d' = d.
Proof.
  simpl. destruct (db_lookup d t); [|discriminate].
  destruct (sum_where _ _ _ _); intros H; inversion H; reflexivity.
Qed.

Lemma get_business_metrics_spec raw w :
  exists w', get_business_metrics raw w =
             (w', inl (if aborted w then [] else metrics_if_all_run raw (working w))).
Proof.
  unfold get_business_metrics, try_except, bind, metrics_if_all_run, query_metric,
    session_execute.
  destruct (aborted w) eqn:Ha.
  { cbn -[run_stmt]. rewrite ?Ha. eexists; reflexivity. }
  cbn -[run_stmt]. rewrite ?Ha.
  destruct (run_stmt raw (working w) q_active_customers PNone) as [d1 r1|e1] eqn:H1;
    cbn -[run_stmt]; [|eexists; reflexivity].
  rewrite (run_count_pure _ _ _ _ _ _ _ H1).
  destruct (run_stmt raw (working w) q_total_revenue PNone) as [d2 r2|e2] eqn:H2;
    cbn -[run_stmt]; [|eexists; reflexivity].
  rewrite (run_sum_pure _ _ _ _ _ _ _ _ H2).
  destruct (run_stmt raw (working w) q_low_stock_items PNone) as [d3 r3|e3] eqn:H3;
    cbn -[run_stmt]; [|eexists; reflexivity].
  rewrite (run_count_pure _ _ _ _ _ _ _ H3).
  destruct (run_stmt raw (working w) q_total_employees PNone) as [d4 r4|e4] eqn:H4;
    cbn -[run_stmt]; [|eexists; reflexivity].
  rewrite (run_count_pure _ _ _ _ _ _ _ H4).
  destruct (run_stmt raw (working w) q_active_projects PNone) as [d5 r5|e5] eqn:H5;
    cbn -[run_stmt]; eexists; reflexivity.
Qed.

Lemma eval_low_stock cols r o :
  eval_cond cols r (CLeCol "current_stock" "reorder_point") = inl o ->
  is_low_stock cols r = match o with Some true => true | _ => false end.
Proof.
  unfold is_low_stock. simpl.
  destruct (cell cols r "current_stock") as [[|a| | |a s]|];
    destruct (cell cols r "reorder_point") as [[|b| | |b t]|];
    cbn; intros H; try discriminate H; injection H as <-; try reflexivity;
    match goal with |- context [if ?c then _ else _] => destruct c end; reflexivity.
Qed.

Lemma count_low_stock cols rows n :
  count_where cols rows (CLeCol "current_stock" "reorder_point") = inl n ->
  n = Z.of_nat (List.length (filter (is_low_stock cols) rows)).
Proof.
  revert n. induction rows as [|r rs IH]; intros n H.
  - simpl in H. inversion H; reflexivity.
  - cbn [count_where] in H. cbn [filter].
    destruct (eval_cond cols r (CLeCol "current_stock" "reorder_point")) as [o|e] eqn:Hc;
      [|discriminate H].
    rewrite (eval_low_stock _ _ _ Hc).
    destruct (count_where cols rs (CLeCol "current_stock" "reorder_point")) as [n'|e];
      [|destruct o as [[]|]; discriminate H].
    specialize (IH n' eq_refl).
    destruct o as [[]|]; injection H as <-; subst n';
      cbn [List.length]; rewrite ?Nat2Z.inj_succ; try reflexivity;
      match goal with |- _ = Z.succ ?x => change ((1 + x)%Z = Z.succ x) end; lia.
Qed.

(** The dashboard over the empty mapping: [metrics.get(key, 0)] is 0 for
    every key, and the cards show 0 and "Inventory Status: Good". *)
Lemma empty_metrics_dashboard (m : list (string * value)) :
  m = [] ->
  m = [] /\ (forall k, metrics_get m k = VInt 0) /\
  forall w0, snd (dashboard_cards m w0) =
    inl [CardMetric "Active Projects" (VInt 0); CardMetric "Total Revenue" (VInt 0);
         CardMetric "Active Employees" (VInt 0); CardText "Inventory Status" "Good"].
Proof. intros ->. split; [reflexivity|]. split; [reflexivity|]. intros w0; reflexivity. Qed.

(** C1 (amended): [get_business_metrics] never raises.  The five queries run
    inside one [try]: if every one of them runs, the result holds the five
    metrics, each with its own query's value (NULL read as 0); if any one of
    them fails (or the session's transaction has already failed), the
    result is the empty mapping, so the metrics whose queries succeeded are
    dropped as well, and the dashboard reads 0 for every metric through
    [metrics.get(key, 0)]. *)
Theorem get_business_metrics_all_or_nothing (raw : db -> string -> engine_outcome)
    (w : world) :
  exists w' m,
    get_business_metrics raw w = (w', inl m) /\
    ((aborted w = true \/
      exists k q, In (k, q) metric_queries /\ query_metric raw (working w) q = None) ->
     m = [] /\ (forall k, metrics_get m k = VInt 0) /\
     forall w0, snd (dashboard_cards m w0) =
       inl [CardMetric "Active Projects" (VInt 0); CardMetric "Total Revenue" (VInt 0);
            CardMetric "Active Employees" (VInt 0); CardText "Inventory Status" "Good"]) /\
    (aborted w = false ->
     (forall k q, In (k, q) metric_queries -> query_metric raw (working w) q <> None) ->
     map fst m = map fst metric_queries /\
     forall k q v, In (k, q) metric_queries ->
       query_metric raw (working w) q = Some v -> In (k, v) m).
Proof.
  destruct (get_business_metrics_spec raw w) as [w' H].
  do 2 eexists. split; [exact H|].
  destruct (aborted w).
  { split; [intros _; apply empty_metrics_dashboard; reflexivity
           | intros Habs; discriminate Habs]. }
  unfold metrics_if_all_run.
  destruct (query_metric raw (working w) q_active_customers) as [a|] eqn:Ha;
  destruct (query_metric raw (working w) q_total_revenue) as [b|] eqn:Hb;
  destruct (query_metric raw (working w) q_low_stock_items) as [c|] eqn:Hc;
  destruct (query_metric raw (working w) q_total_employees) as [e|] eqn:He;
  destruct (query_metric raw (working w) q_active_projects) as [f|] eqn:Hf;
  (split;
   [ intros [Habs | [k [q [Hin Hq]]]]; apply empty_metrics_dashboard; [discriminate Habs|];
     try reflexivity; metric_cases Hin; congruence
   | intros _ Hall ]);
  try (exfalso;
       first [ exact (Hall _ _ (or_introl eq_refl) Ha)
             | exact (Hall _ _ (or_intror (or_introl eq_refl)) Hb)
             | exact (Hall _ _ (or_intror (or_intror (or_introl eq_refl))) Hc)
             | exact (Hall _ _ (or_intror (or_intror (or_intror (or_introl eq_refl)))) He)
             | exact (Hall _ _ (or_intror (or_intror (or_intror (or_intror
                                   (or_introl eq_refl))))) Hf) ]).
  split; [reflexivity|].
  intros k q v Hin Hq. metric_cases Hin; rewrite Hq in *;
    [injection Ha as <- | injection Hb as <- | injection Hc as <-
    | injection He as <- | injection Hf as <-]; simpl; tauto.
Qed.

(** C1: a run in which one metric's query fails (there is no [inventory]
    table) while another's succeeds ([active_customers] counts 2 active
    customers): the aggregator returns the empty mapping, not the succeeding
    metric with its value and 0 for the failing one. *)
Lemma get_business_metrics_drops_succeeding_metrics :
  query_metric no_raw_sql (working no_inventory_world) q_active_customers = Some (VInt 2) /\
  query_metric no_raw_sql (working no_inventory_world) q_low_stock_items = None /\
  snd (get_business_metrics no_raw_sql no_inventory_world) = inl [] /\
  ~ In ("active_customers", VInt 2)
      (match snd (get_business_metrics no_raw_sql no_inventory_world) with
       | inl m => m | inr _ => [] end).
Proof. vm_compute. repeat split; try reflexivity. intros []. Qed.

(** C5: whenever the aggregator reports [low_stock_items], the value is the
    number of inventory items whose [current_stock <= reorder_point] holds
    (equality included; a NULL stock or threshold is not counted); CHR-002
    (stock 8, reorder point 15) is such an item and LAP-001 (stock 25,
    reorder point 10) is not. *)
Theorem low_stock_items_counts_le (raw : db -> string -> engine_outcome)
    (w w' : world) (m : list (string * value)) (v : value)
    (Hrun : get_business_metrics raw w = (w', inl m))
    (Hv : In ("low_stock_items", v) m) :
  (exists tb, db_lookup (working w) "inventory" = Some tb /\
     v = VInt (Z.of_nat (List.length (filter (is_low_stock (tcols tb)) (trows tb))))) /\
  (forall a, is_low_stock inventory_cols [VInt 0; VStr ""; VStr ""; VStr ""; VInt a; VInt a]
             = true) /\
  is_low_stock inventory_cols item_CHR002 = true /\
  is_low_stock inventory_cols item_LAP001 = false.
Proof.
  split; [|split; [intros a; unfold is_low_stock; simpl; apply Z.leb_refl | split; reflexivity]].
  destruct (get_business_metrics_spec raw w) as [w1 H].
  rewrite Hrun in H. injection H as _ Hm. subst m.
  destruct (aborted w); [contradiction|].
  unfold metrics_if_all_run in Hv.
  destruct (query_metric raw (working w) q_active_customers); [|contradiction].
  destruct (query_metric raw (working w) q_total_revenue); [|contradiction].
  destruct (query_metric raw (working w) q_low_stock_items) as [c|] eqn:Hc; [|contradiction].
  destruct (query_metric raw (working w) q_total_employees); [|contradiction].
  destruct (query_metric raw (working w) q_active_projects); [|contradiction].
  simpl in Hv.
  assert (v = c) as ->.
  { repeat destruct Hv as [Hv|Hv]; try (injection Hv; intros; subst; discriminate);
      try (injection Hv as <-; reflexivity); contradiction. }
  unfold query_metric in Hc. simpl in Hc.
  destruct (db_lookup (working w) "inventory") as [tb|]; [|discriminate].
  exists tb. split; [reflexivity|].
  destruct (count_where (tcols tb) (trows tb) (CLeCol "current_stock" "reorder_point"))
    as [n|e] eqn:Hn; [|discriminate].
  injection Hc as <-. rewrite (count_low_stock _ _ _ Hn).
  destruct (Z.of_nat _) eqn:Hz; reflexivity.
Qed.

(** ** KPI metrics *)

(** C10: [get_kpi_metrics] returns exactly the eight keys (in this order),
    all 0 on an empty dataset, and [avg_order_value] is
    [total_revenue / total_orders] when [total_orders > 0], 0 otherwise. *)
Theorem get_kpi_metrics_keys (data : kdata) :
  map fst (get_kpi_metrics data) = kpi_keys /\
  (krows data = [] -> map snd (get_kpi_metrics data) = repeat 0%Q 8) /\
  exists tr tot,
    dict_get (get_kpi_metrics data) "total_revenue" = Some tr /\
    dict_get (get_kpi_metrics data) "total_orders" = Some tot /\
    dict_get (get_kpi_metrics data) "avg_order_value" =
      Some (if Qpos_b tot then (tr / tot)%Q else 0%Q).
Proof.
  destruct data as [hd hr hc rows]. unfold get_kpi_metrics. simpl krows.
  destruct rows as [|r0 rs].
  { split; [reflexivity|]. split; [intros _; reflexivity|].
    exists 0%Q, 0%Q. repeat split; reflexivity. }
  cbv zeta. simpl has_date; simpl has_revenue; simpl has_customer.
  split; [|split; [intros H; discriminate H|]].
  - destruct hd; [|reflexivity].
    destruct (previous_window (r0 :: rs)); [reflexivity|].
    destruct (current_window (r0 :: rs)); [reflexivity|].
    destruct hc; reflexivity.
  - exists (if hr then revenue_sum (r0 :: rs) else 0%Q), (QofNat (List.length (r0 :: rs))).
    destruct hd; [|repeat split; reflexivity].
    destruct (previous_window (r0 :: rs)); [repeat split; reflexivity|].
    destruct (current_window (r0 :: rs)); [repeat split; reflexivity|].
    destruct hc; repeat split; reflexivity.
Qed.

Lemma Qpos_b_spec (x : Q) : Qpos_b x = true <-> (0 < x)%Q.
Proof.
  unfold Qpos_b. rewrite negb_true_iff. split.
  - intros H. apply Qnot_le_lt. intros Hle. apply Qle_bool_iff in Hle. congruence.
  - intros H. destruct (Qle_bool x 0) eqn:E; [|reflexivity].
    apply Qle_bool_iff in E. exfalso. exact (Qlt_not_le _ _ H E).
Qed.

Lemma growth_ok_code (cur prev : Q) :
  growth_ok (if Qpos_b prev then ((cur - prev) / prev * 100)%Q else 0%Q) cur prev.
Proof.
  split; intros H; destruct (Qpos_b prev) eqn:E; try reflexivity.
  - apply Qpos_b_spec in H. congruence.
  - apply Qpos_b_spec in E. exfalso. exact (Qlt_not_le _ _ E H).
Qed.

Lemma growth_ok_zero_empty (g cur : Q) : g = 0%Q -> growth_ok g cur 0.
Proof. intros ->. split; intros H; [exfalso; exact (Qlt_irrefl 0 H) | reflexivity]. Qed.

Lemma latest_date_attained (rs : list krow) (m : Z) :
  latest_date rs = Some m -> exists r, In r rs /\ kdate r = Some m.
Proof.
  revert m. induction rs as [|r rs IH]; intros m H; simpl in H; [discriminate H|].
  destruct (kdate r) as [d|] eqn:Hd; destruct (latest_date rs) as [m'|] eqn:Hl.
  - injection H as <-. destruct (Z.max_spec d m') as [[_ E] | [_ E]]; rewrite E.
    + destruct (IH m' eq_refl) as [r' [Hr' E']].
      exists r'. split; [right; exact Hr' | exact E'].
    + exists r. split; [left; reflexivity | exact Hd].
  - injection H as <-. exists r. split; [left; reflexivity | exact Hd].
  - destruct (IH m H) as [r' [Hr' E']]. exists r'. split; [right; exact Hr' | exact E'].
  - discriminate H.
Qed.

(** When the previous window holds a row, a latest date exists and the row
    carrying it is in the current window. *)
Lemma current_window_nonempty (rs : list krow) :
  previous_window rs <> [] -> current_window rs <> [].
Proof.
  intros Hp. unfold previous_window, current_window in *.
  destruct (latest_date rs) as [m|] eqn:Hl.
  - destruct (latest_date_attained rs m Hl) as [r [Hr E]]. intros Hnil.
    assert (Hin : In r (filter (fun r1 => dt_ge (kdate r1) (dt_sub (Some m) thirty_days)) rs)).
    { apply filter_In. split; [exact Hr|]. rewrite E. cbn. apply Z.leb_le.
      unfold thirty_days. lia. }
    rewrite Hnil in Hin. exact Hin.
  - exfalso. apply Hp. clear Hp Hl.
    induction rs as [|x xs IH]; [reflexivity|]. simpl. destruct (kdate x); exact IH.
Qed.

(** C2 (amended): on a dataset with a date column, each of the four growth
    rates compares the window [latest - 30 days, latest] with the window
    [latest - 60 days, latest - 30 days): it is
    [(current - previous) / previous * 100] when the previous-period
    aggregate is positive, and exactly 0 when that aggregate is 0 or
    negative (an empty previous window, a missing [revenue] or [customer]
    column count as 0). *)
Theorem kpi_growth_rates_policy (data : kdata)
    (Hd : has_date data = true) (Hne : krows data <> []) :
  let cur := current_window (krows data) in
  let prev := previous_window (krows data) in
  exists g1 g2 g3 g4,
    dict_get (get_kpi_metrics data) "revenue_growth" = Some g1 /\
    dict_get (get_kpi_metrics data) "order_growth" = Some g2 /\
    dict_get (get_kpi_metrics data) "customer_growth" = Some g3 /\
    dict_get (get_kpi_metrics data) "aov_growth" = Some g4 /\
    growth_ok g1 (revenue_agg data cur) (revenue_agg data prev) /\
    growth_ok g2 (orders_agg cur) (orders_agg prev) /\
    growth_ok g3 (customers_agg data cur) (customers_agg data prev) /\
    growth_ok g4 (aov_agg data cur) (aov_agg data prev).
Proof.
  destruct data as [hd hr hc rows]. simpl in Hd. subst hd.
  destruct rows as [|r0 rs]; [contradiction|].
  cbv zeta. unfold get_kpi_metrics. simpl krows. cbv zeta.
  simpl has_date; simpl has_revenue; simpl has_customer.
  destruct (previous_window (r0 :: rs)) as [|p0 ps] eqn:Hp.
  - destruct hr, hc;
      (do 4 eexists; do 4 (split; [reflexivity|]);
       split; [|split; [|split]]; apply growth_ok_zero_empty; reflexivity).
  - destruct (current_window (r0 :: rs)) as [|c0 cs] eqn:Hc;
      [exfalso; apply (current_window_nonempty (r0 :: rs));
       [rewrite Hp; discriminate | exact Hc]|].
    destruct hr, hc;
      (do 4 eexists; do 4 (split; [reflexivity|]);
       split; [|split; [|split]];
       first [ apply growth_ok_code | apply growth_ok_zero_empty; reflexivity ]).
Qed.

(** C2: with a negative previous-period revenue the formula gives
    [(10 - (-10)) / (-10) * 100 = -200], but the reported revenue growth is
    0. *)
Lemma kpi_growth_negative_previous_is_zero :
  revenue_sum (previous_window (krows kpi_refund_data)) = (-10)%Q /\
  revenue_sum (current_window (krows kpi_refund_data)) = 10%Q /\
  dict_get (get_kpi_metrics kpi_refund_data) "revenue_growth" = Some 0%Q /\
  ~ (0 == (10 - (-10)) / (-10) * 100)%Q.
Proof.
  split; [vm_compute; reflexivity|].
  split; [vm_compute; reflexivity|].
  split; [vm_compute; reflexivity|].
  vm_compute. intros H. discriminate H.
Qed.

(** ** Backup and restore *)

(** C4: restoring [{"customers": [{"id": 1, "name": "Ann"}]}] over a
    customers table of 5 rows deletes the 5 rows, inserts nothing (the
    INSERT's list of values is refused by [session.execute], and
    [execute_query] swallows the error) and still reports the table as
    restored: 0 rows remain, not 1. *)
Lemma restore_ann_leaves_empty_table :
  rows_of five_customers_world "customers" <> None /\
  List.length (match rows_of five_customers_world "customers" with
               | Some rs => rs | None => [] end) = 5%nat /\
  rows_of (fst (restore_backup no_raw_sql ann_backup five_customers_world)) "customers"
    = Some [] /\
  snd (restore_backup no_raw_sql ann_backup five_customers_world) = inl ["customers"] /\
  In ("Query execution error: " ++ distill_error)
     (ui_log (fst (restore_backup no_raw_sql ann_backup five_customers_world))).
Proof.
  split; [vm_compute; discriminate|].
  split; [vm_compute; reflexivity|].
  split; [vm_compute; reflexivity|].
  split; [vm_compute; reflexivity|].
  vm_compute. left. reflexivity.
Qed.

(** C3: backing up a customers table holding the row (1, "Ann") and
    restoring that backup onto the empty table leaves it empty. *)
Lemma backup_then_restore_loses_rows :
  rows_of ann_world "customers" = Some [[VInt 1; VStr "Ann"]] /\
  snd (create_backup no_raw_sql ["customers"] ann_world) = inl (Some ann_backup) /\
  rows_of (fst (restore_backup no_raw_sql ann_backup empty_customers_world)) "customers"
    = Some [].
Proof.
  split; [reflexivity|].
  split; [vm_compute; reflexivity|].
  vm_compute. reflexivity.
Qed.

(** X4: the INSERT of any record whose first value is a JSON scalar changes
    nothing and raises nothing: [session.execute] refuses the list of
    values, [execute_query] rolls back and shows the error. *)
Lemma insert_record_changes_nothing (raw : db -> string -> engine_outcome)
    (t k : string) (v : json) (kv : list (string * json)) (w : world)
    (Hv : is_mapping v = false) :
  exists w', insert_record raw t (JObj ((k, v) :: kv)) w = (w', inl tt) /\
             committed w' = committed w /\ working w' = committed w.
Proof.
  unfold insert_record, execute_query, try_except, bind, session_execute.
  cbn -[run_stmt]. rewrite Hv. cbn -[run_stmt].
  eexists. split; [reflexivity|]. split; reflexivity.
Qed.

Lemma insert_record_changes_nothing_witness :
  is_mapping (JInt 1) = false /\
  exists w', insert_record no_raw_sql "customers"
               (JObj [("id", JInt 1); ("name", JStr "Ann")]) five_customers_world
             = (w', inl tt) /\
           committed w' = committed five_customers_world /\
           working w' = committed five_customers_world.
Proof.
  split; [reflexivity|].
  exact (insert_record_changes_nothing no_raw_sql "customers" "id" (JInt 1)
           [("name", JStr "Ann")] five_customers_world eq_refl).
Defined.

(** ** Witnesses *)

Lemma kpi_growth_rates_policy_witness :
  has_date kpi_refund_data = true /\ krows kpi_refund_data <> [] /\
  let cur := current_window (krows kpi_refund_data) in
  let prev := previous_window (krows kpi_refund_data) in
  exists g1 g2 g3 g4,
    dict_get (get_kpi_metrics kpi_refund_data) "revenue_growth" = Some g1 /\
    dict_get (get_kpi_metrics kpi_refund_data) "order_growth" = Some g2 /\
    dict_get (get_kpi_metrics kpi_refund_data) "customer_growth" = Some g3 /\
    dict_get (get_kpi_metrics kpi_refund_data) "aov_growth" = Some g4 /\
    growth_ok g1 (revenue_agg kpi_refund_data cur) (revenue_agg kpi_refund_data prev) /\
    growth_ok g2 (orders_agg cur) (orders_agg prev) /\
    growth_ok g3 (customers_agg kpi_refund_data cur) (customers_agg kpi_refund_data prev) /\
    growth_ok g4 (aov_agg kpi_refund_data cur) (aov_agg kpi_refund_data prev).
Proof.
  split; [reflexivity|]. split; [discriminate|].
  exact (kpi_growth_rates_policy kpi_refund_data eq_refl
           ltac:(discriminate)).
Defined.

Lemma low_stock_items_counts_le_witness :
  get_business_metrics no_raw_sql sample_world = (sample_world, inl sample_metrics) /\
  In ("low_stock_items", VInt 1) sample_metrics /\
  ((exists tb, db_lookup (working sample_world) "inventory" = Some tb /\
     VInt 1 = VInt (Z.of_nat (List.length (filter (is_low_stock (tcols tb)) (trows tb))))) /\
  (forall a, is_low_stock inventory_cols [VInt 0; VStr ""; VStr ""; VStr ""; VInt a; VInt a]
             = true) /\
  is_low_stock inventory_cols item_CHR002 = true /\
  is_low_stock inventory_cols item_LAP001 = false).
Proof.
  assert (Hrun : get_business_metrics no_raw_sql sample_world
                 = (sample_world, inl sample_metrics)) by (vm_compute; reflexivity).
  assert (Hv : In ("low_stock_items", VInt 1) sample_metrics) by (simpl; tauto).
  split; [exact Hrun|]. split; [exact Hv|].
  exact (low_stock_items_counts_le no_raw_sql sample_world sample_world sample_metrics
           (VInt 1) Hrun Hv).
Defined.

Lemma sample_inventory_nodup :
  forall tb, db_lookup (working sample_world) "inventory" = Some tb -> NoDup (trows tb).
Proof.
  intros tb H. vm_compute in H. injection H as <-. simpl.
  repeat constructor; simpl; intros Hin; repeat destruct Hin as [Hin|Hin];
    try discriminate Hin; contradiction.
Qed.

Lemma fetch_page_bounded_disjoint_witness :
  (0 < 2)%nat /\ (0 < 1)%nat /\
  page_offset 2 1 = ((1 - 1) * 2)%nat /\
  table_query "inventory" (Some (LimText 2 (page_offset 2 1)))
    = SSelectAll "inventory" (Some (LimText 2 ((1 - 1) * 2))) /\
  exists w1 d1 w2 d2,
    fetch_page no_raw_sql "inventory" 2 1 sample_world = (w1, inl d1) /\
    fetch_page no_raw_sql "inventory" 2 (S 1) sample_world = (w2, inl d2) /\
    (List.length (df_rows d1) <= 2)%nat /\
    (List.length (df_rows d2) <= 2)%nat /\
    (forall x, In x (df_rows d1) -> In x (df_rows d2) -> False).
Proof.
  split; [lia|]. split; [lia|].
  exact (fetch_page_bounded_disjoint no_raw_sql sample_world "inventory" 2 1
           ltac:(lia) ltac:(lia) sample_inventory_nodup).
Defined.

(** * Further properties of the code *)

(** ** Date filtering and KPI bounds *)

Lemma Zwindow_and (a b c e x : Z) :
  (Z.leb c x && Z.leb x e) && (Z.leb a x && Z.leb x b) =
  Z.leb (Z.max a c) x && Z.leb x (Z.min b e).
Proof.
  destruct (Z.leb_spec0 a x), (Z.leb_spec0 x b), (Z.leb_spec0 c x), (Z.leb_spec0 x e),
    (Z.leb_spec0 (Z.max a c) x), (Z.leb_spec0 x (Z.min b e)); simpl;
    reflexivity || (exfalso; lia).
Qed.

(** X9: filtering by [start1, end1] and then by [start2, end2] keeps the
    same rows as one filter by the intersection
    [max start1 start2, min end1 end2]; a table without a date column is
    returned unchanged by both. *)
Theorem filter_data_by_date_compose (data : kdata) (start1 end1 start2 end2 : Z) :
  filter_data_by_date (filter_data_by_date data start1 end1) start2 end2 =
  filter_data_by_date data (Z.max start1 start2) (Z.min end1 end2).
Proof.
  destruct data as [hd hr hc rows]. unfold filter_data_by_date. simpl.
  destruct hd; [|reflexivity]. simpl. f_equal.
  induction rows as [|r rs IH]; [reflexivity|]. simpl.
  destruct (kdate r) as [d|] eqn:Hd; simpl; [|exact IH].
  rewrite <- (Zwindow_and start1 end1 start2 end2 d).
  destruct (Z.leb start1 d && Z.leb d end1); simpl; rewrite ?Hd;
    destruct (Z.leb start2 d && Z.leb d end2); simpl; rewrite ?IH; reflexivity.
Qed.

Lemma QofNat_pos (n : nat) : (0 < n)%nat -> (0 < QofNat n)%Q.
Proof.
  intros H. unfold QofNat. change 0%Q with (inject_Z 0). rewrite <- Zlt_Qlt. lia.
Qed.

Lemma QofNat_le (m n : nat) : (m <= n)%nat -> (QofNat m <= QofNat n)%Q.
Proof. intros H. unfold QofNat. rewrite <- Zle_Qle. lia. Qed.





(** ** Data quality: [validate_data] and [clean_data] *)

(** No row equals an earlier one, nor one of [seen]. *)
Fixpoint fresh_from (seen rows : list (list cellp)) : Prop :=
  match rows with
  | [] => True
  | r :: rs => existsb (row_eqb r) seen = false /\ fresh_from (r :: seen) rs
  end.

Lemma count_duplicated_fresh (seen rows : list (list cellp)) :
  count_duplicated_from seen rows = O <-> fresh_from seen rows.
Proof.
  revert seen. induction rows as [|r rs IH]; intros seen; simpl; [tauto|].
  destruct (existsb (row_eqb r) seen); split; intros H.
  - discriminate H.
  - destruct H as [H _]; discriminate H.
  - split; [reflexivity|]. apply IH; exact H.
  - apply IH; apply H.
Qed.

Lemma existsb_incl {A} (f : A -> bool) (l l' : list A) :
  (forall x, In x l' -> In x l) -> existsb f l = false -> existsb f l' = false.
Proof.
  intros Hi H. destruct (existsb f l') eqn:E; [|reflexivity].
  apply existsb_exists in E. destruct E as [x [Hx Hf]].
  assert (Ht : existsb f l = true) by (apply existsb_exists; exists x; auto).
  congruence.
Qed.

Lemma fresh_from_incl (rows seen seen' : list (list cellp)) :
  (forall x, In x seen' -> In x seen) -> fresh_from seen rows -> fresh_from seen' rows.
Proof.
  revert seen seen'. induction rows as [|r rs IH]; intros seen seen' Hi H; simpl; [exact I|].
  destruct H as [H1 H2]. split.
  - exact (existsb_incl _ _ _ Hi H1).
  - apply (IH (r :: seen)); [|exact H2]. intros x [->|Hx]; [left; reflexivity | right; auto].
Qed.

Lemma fresh_from_filter (p : list cellp -> bool) (rows seen : list (list cellp)) :
  fresh_from seen rows -> fresh_from seen (filter p rows).
Proof.
  revert seen. induction rows as [|r rs IH]; intros seen H; simpl; [exact I|].
  destruct H as [H1 H2]. destruct (p r); simpl.
  - split; [exact H1|]. apply IH; exact H2.
  - apply IH. apply (fresh_from_incl _ (r :: seen)); [intros x Hx; right; exact Hx|exact H2].
Qed.

Lemma drop_duplicates_fresh (rows seen seen' : list (list cellp)) :
  (forall x, In x seen' -> In x seen) -> fresh_from seen' (drop_duplicates_from seen rows).
Proof.
  revert seen seen'. induction rows as [|r rs IH]; intros seen seen' Hi; simpl; [exact I|].
  destruct (existsb (row_eqb r) seen) eqn:E.
  - apply IH. intros x Hx; right; auto.
  - simpl. split; [exact (existsb_incl _ _ _ Hi E)|].
    apply IH. intros x [->|Hx]; [left; reflexivity | right; auto].
Qed.

Lemma drop_duplicates_id (rows seen : list (list cellp)) :
  fresh_from seen rows -> drop_duplicates_from seen rows = rows.
Proof.
  revert seen. induction rows as [|r rs IH]; intros seen H; simpl; [reflexivity|].
  destruct H as [H1 H2]. rewrite H1. f_equal. apply IH; exact H2.
Qed.

Lemma filter_id {A} (f : A -> bool) (l : list A) :
  (forall x, In x l -> f x = true) -> filter f l = l.
Proof.
  induction l as [|x l IH]; intros H; simpl; [reflexivity|].
  rewrite (H x (or_introl eq_refl)). f_equal. apply IH. intros y Hy; apply H; right; exact Hy.
Qed.

Lemma dropna_complete (rows : list (list cellp)) :
  forall r, In r (dropna rows) -> forallb (fun c => negb (is_missing c)) r = true.
Proof. intros r Hr. unfold dropna in Hr. apply filter_In in Hr. apply Hr. Qed.

Lemma count_missing_dropna (rows : list (list cellp)) : count_missing (dropna rows) = O.
Proof.
  assert (H := dropna_complete rows). revert H. generalize (dropna rows) as l.
  induction l as [|r l IH]; intros H; simpl; [reflexivity|].
  assert (Hr : filter is_missing r = []).
  { assert (Hf := H r (or_introl eq_refl)). clear -Hf.
    induction r as [|c r IHr]; simpl in *; [reflexivity|].
    apply andb_true_iff in Hf. destruct Hf as [Hc Hf].
    destruct c; [|discriminate Hc]. exact (IHr Hf). }
  rewrite Hr. simpl. apply IH. intros r' Hr'; apply H; right; exact Hr'.
Qed.

(** What cleaning with duplicate removal and "Remove rows" keeps. *)
Lemma clean_remove_rows_frows conv (df : frame) :
  clean_data conv df true "Remove rows" false =
  mkFrame (fcols df) (dropna (drop_duplicates (frows df))).
Proof. reflexivity. Qed.

(** X11: cleaning with [remove_duplicates] and "Remove rows" (dates left
    alone) gives a table that [validate_data] scores 100 with no missing
    value and no duplicate row, whatever the input; cleaning that result
    again with the same options changes nothing. *)
Theorem clean_then_validate_perfect (to_numeric_ok : list cellp -> bool)
    (conv : list cellp -> option (cellp -> cellp)) (df : frame) :
  let cleaned := clean_data conv df true "Remove rows" false in
  missing_values (validate_data to_numeric_ok cleaned) = O /\
  duplicates (validate_data to_numeric_ok cleaned) = O /\
  quality_score (validate_data to_numeric_ok cleaned) = 100%Q /\
  clean_data conv cleaned true "Remove rows" false = cleaned.
Proof.
  cbv zeta. rewrite clean_remove_rows_frows.
  assert (Hm : count_missing (dropna (drop_duplicates (frows df))) = O)
    by apply count_missing_dropna.
  assert (Hf : fresh_from [] (dropna (drop_duplicates (frows df)))).
  { apply fresh_from_filter. apply drop_duplicates_fresh. intros x Hx; exact Hx. }
  assert (Hd : count_duplicated (dropna (drop_duplicates (frows df))) = O).
  { apply count_duplicated_fresh. exact Hf. }
  split; [|split; [|split]];
    [ unfold validate_data; cbn [frows fcols]; rewrite Hm, Hd; reflexivity .. |].
  rewrite clean_remove_rows_frows. cbn [fcols frows]. f_equal.
  unfold drop_duplicates at 1. rewrite (drop_duplicates_id _ [] Hf).
  apply filter_id. intros r Hr. apply (dropna_complete (drop_duplicates (frows df))).
  exact Hr.
Qed.

Lemma frac_nonneg (a b : nat) : (0 <= QofNat a / QofNat b * 100)%Q.
Proof.
  apply Qmult_le_0_compat; [|discriminate]. unfold Qdiv.
  apply Qmult_le_0_compat; [apply (QofNat_le 0); lia|].
  apply Qinv_le_0_compat. apply (QofNat_le 0). lia.
Qed.

Lemma frac_pos (a b : nat) : (0 < a)%nat -> (0 < b)%nat -> (0 < QofNat a / QofNat b * 100)%Q.
Proof.
  intros Ha Hb. apply Qmult_lt_0_compat; [|reflexivity]. unfold Qdiv.
  apply Qmult_lt_0_compat; [apply QofNat_pos; exact Ha|].
  apply Qinv_lt_0_compat. apply QofNat_pos. exact Hb.
Qed.

Lemma count_duplicated_le (seen rows : list (list cellp)) :
  (count_duplicated_from seen rows <= List.length rows)%nat.
Proof.
  revert seen. induction rows as [|r rs IH]; intros seen; simpl; [lia|].
  destruct (existsb (row_eqb r) seen); specialize (IH (r :: seen)); lia.
Qed.

Lemma count_missing_cells (rows : list (list cellp)) (c : nat) :
  (forall r, In r rows -> List.length r = c) ->
  (0 < count_missing rows)%nat -> (0 < List.length rows * c)%nat.
Proof.
  intros Hw Hm. destruct rows as [|r rs]; [simpl in Hm; lia|].
  assert (Hc : (0 < c)%nat).
  { destruct (Nat.eq_dec c 0) as [E|E]; [|lia]. exfalso.
    assert (Hz : forall r', In r' (r :: rs) -> r' = []).
    { intros r' Hr'. apply length_zero_iff_nil. rewrite (Hw r' Hr'). exact E. }
    clear Hw. revert Hm Hz. generalize (r :: rs) as l. induction l as [|x l IH]; simpl.
    - lia.
    - intros Hm Hz. rewrite (Hz x (or_introl eq_refl)) in Hm. simpl in Hm.
      apply IH; [exact Hm|]. intros r' Hr'. apply Hz. right; exact Hr'. }
  simpl. nia.
Qed.

(** X12: on a well-formed table (every row as wide as the column list) the
    quality score of [validate_data] lies between 0 and 100, and it is 100
    exactly when there is no missing value and no duplicate row. *)
Theorem validate_data_score_range (to_numeric_ok : list cellp -> bool) (df : frame)
    (Hw : forall r, In r (frows df) -> List.length r = List.length (fcols df)) :
  (0 <= quality_score (validate_data to_numeric_ok df) <= 100)%Q /\
  (quality_score (validate_data to_numeric_ok df) == 100 <->
   missing_values (validate_data to_numeric_ok df) = O /\
   duplicates (validate_data to_numeric_ok df) = O)%Q.
Proof.
  unfold validate_data.
  set (n := List.length (frows df)). set (c := List.length (fcols df)).
  set (m := count_missing (frows df)). set (d := count_duplicated (frows df)).
  assert (Hmp0 := frac_nonneg m (n * c)). assert (Hdp0 := frac_nonneg d n).
  assert (Hmp : (0 < m)%nat -> (0 < QofNat m / QofNat (n * c) * 100)%Q).
  { intros H. apply frac_pos; [exact H|]. apply count_missing_cells; [exact Hw|exact H]. }
  assert (Hdp : (0 < d)%nat -> (0 < QofNat d / QofNat n * 100)%Q).
  { intros H. apply frac_pos; [exact H|].
    assert (Hle := count_duplicated_le [] (frows df)). unfold d, count_duplicated in *.
    unfold n. lia. }
  destruct (Nat.ltb 0 m) eqn:Em; apply Nat.ltb_lt in Em || apply Nat.ltb_ge in Em;
    destruct (Nat.ltb 0 d) eqn:Ed; apply Nat.ltb_lt in Ed || apply Nat.ltb_ge in Ed;
    cbv beta iota zeta; cbn [quality_score missing_values duplicates];
    match goal with |- context [Qle_bool ?s 0] =>
      destruct (Qle_bool s 0) eqn:Eq;
      [apply Qle_bool_iff in Eq |
       assert (Eq' : ~ (s <= 0)%Q) by (rewrite <- Qle_bool_iff; congruence)]
    end;
    try specialize (Hmp Em); try specialize (Hdp Ed);
    (split; [split; lra|]); split; intros H;
    try (exfalso; lra); try (destruct H; lia); try lra.
Qed.

(** ** Analytics insights *)



Lemma vc_count_add (p q : string) (acc : list (string * nat)) :
  vc_count (vc_add p acc) q = (vc_count acc q + if String.eqb p q then 1 else 0)%nat.
Proof.
  induction acc as [|[k v] acc IH]; simpl.
  - destruct (String.eqb p q); reflexivity.
  - destruct (String.eqb_spec k p) as [->|Hkp]; simpl.
    + destruct (String.eqb p q); lia.
    + rewrite IH. destruct (String.eqb k q); lia.
Qed.

Lemma vc_count_fold (xs : list (option string)) (acc : list (string * nat)) (q : string) :
  vc_count (fold_left (fun acc x => match x with Some p => vc_add p acc | None => acc end)
                      xs acc) q =
  (vc_count acc q +
   List.length (filter (fun x => match x with Some p => String.eqb p q | None => false end) xs))%nat.
Proof.
  revert acc. induction xs as [|x xs IH]; intros acc; simpl; [lia|].
  rewrite IH. destruct x as [p|]; [rewrite vc_count_add; destruct (String.eqb p q); simpl|];
    lia.
Qed.

Lemma vc_add_keys (p x : string) (acc : list (string * nat)) :
  In x (map fst (vc_add p acc)) -> x = p \/ In x (map fst acc).
Proof.
  induction acc as [|[k v] acc IH]; simpl.
  - intros [H|H]; [left; auto | contradiction].
  - destruct (String.eqb k p); simpl; intros [H|H]; auto.
    destruct (IH H); auto.
Qed.

Lemma vc_add_nodup (p : string) (acc : list (string * nat)) :
  NoDup (map fst acc) -> NoDup (map fst (vc_add p acc)).
Proof.
  induction acc as [|[k v] acc IH]; simpl; intros H.
  - constructor; [intros []|constructor].
  - inversion H as [|? ? Hk Hnd]; subst.
    destruct (String.eqb_spec k p) as [->|Hkp]; simpl; [constructor; assumption|].
    constructor; [|apply IH; exact Hnd].
    intros Hin. destruct (vc_add_keys _ _ _ Hin); [congruence|contradiction].
Qed.

Lemma vc_add_pos (p : string) (acc : list (string * nat)) :
  Forall (fun kv => (0 < snd kv)%nat) acc -> Forall (fun kv => (0 < snd kv)%nat) (vc_add p acc).
Proof.
  induction acc as [|[k v] acc IH]; simpl; intros H.
  - constructor; [simpl; lia|constructor].
  - inversion H as [|? ? Hv Hr]; subst.
    destruct (String.eqb k p); constructor; simpl in *; auto; lia.
Qed.

Lemma value_counts_inv (xs : list (option string)) (acc : list (string * nat)) :
  NoDup (map fst acc) -> Forall (fun kv => (0 < snd kv)%nat) acc ->
  let l := fold_left (fun acc x => match x with Some p => vc_add p acc | None => acc end) xs acc in
  NoDup (map fst l) /\ Forall (fun kv => (0 < snd kv)%nat) l.
Proof.
  revert acc. induction xs as [|x xs IH]; intros acc H1 H2; simpl; [auto|].
  apply IH; destruct x; auto using vc_add_nodup, vc_add_pos.
Qed.

Lemma vc_count_absent (acc : list (string * nat)) (q : string) :
  ~ In q (map fst acc) -> vc_count acc q = O.
Proof.
  induction acc as [|[k v] acc IH]; simpl; intros H; [reflexivity|].
  destruct (String.eqb_spec k q); [exfalso; auto|]. apply IH. auto.
Qed.

Lemma vc_count_in (acc : list (string * nat)) (q : string) (m : nat) :
  NoDup (map fst acc) -> In (q, m) acc -> vc_count acc q = m.
Proof.
  induction acc as [|[k v] acc IH]; simpl; intros Hnd Hin; [contradiction|].
  inversion Hnd as [|? ? Hk Hnd']; subst.
  destruct Hin as [E|Hin].
  - injection E as -> ->. rewrite String.eqb_refl. rewrite vc_count_absent; [lia|exact Hk].
  - destruct (String.eqb_spec k q) as [->|Hkq]; [|apply IH; assumption].
    exfalso. apply Hk. apply (in_map fst) in Hin. exact Hin.
Qed.

Lemma vc_count_pos_in (acc : list (string * nat)) (q : string) :
  (0 < vc_count acc q)%nat -> exists m, In (q, m) acc.
Proof.
  induction acc as [|[k v] acc IH]; simpl; intros H; [lia|].
  destruct (String.eqb_spec k q) as [->|Hkq].
  - exists v. left; reflexivity.
  - destruct (IH H) as [m Hm]. exists m. right; exact Hm.
Qed.

(** X14: when the table has a [product] column and rows, every insight list
    that [get_analytics_insights] returns ends with "Top selling product:
    p" for a product [p] that occurs in the table and occurs in at least as
    many rows as any other product (whatever order [value_counts] gives to
    equal counts). *)
Theorem insights_top_product_is_most_frequent
    (vc_order : list (string * nat) -> list (string * nat))
    (Hperm : forall l, Permutation l (vc_order l))
    (Hsort : forall l, Sorted (fun a b => Nat.leb (snd b) (snd a) = true) (vc_order l))
    (data : idata) (ins : insights)
    (Hp : ihas_product data = true) (Hne : irows data <> [])
    (Hres : get_analytics_insights vc_order data = inl ins) :
  exists top,
    last (key_insights ins) "" = "Top selling product: " ++ top /\
    (0 < product_count (irows data) top)%nat /\
    forall p, (product_count (irows data) p <= product_count (irows data) top)%nat.
Proof.
  destruct data as [hr hd hc hp rows]. simpl in Hp, Hne |- *. subst hp.
  unfold get_analytics_insights in Hres. cbn [irows ihas_product] in Hres.
  destruct rows as [|r0 rs]; [contradiction|].
  set (vcr := value_counts_raw (map iproduct (r0 :: rs))) in Hres.
  destruct (vc_order vcr) as [|[top n] rest] eqn:Ev;
    [destruct hr, hc; discriminate Hres|].
  exists top. split.
  { destruct hr, hc; cbv beta iota zeta in Hres; injection Hres as <-; cbn [key_insights];
      first [apply last_last | reflexivity]. }
  destruct (value_counts_inv (map iproduct (r0 :: rs)) [] (NoDup_nil _) (Forall_nil _))
    as [Hnd Hpos].
  fold vcr in Hnd, Hpos.
  assert (Hcount : forall q, vc_count vcr q = product_count (r0 :: rs) q).
  { intros q. unfold vcr, value_counts_raw. rewrite vc_count_fold. reflexivity. }
  assert (Hin_top : In (top, n) vcr).
  { apply (Permutation_in (top, n) (Permutation_sym (Hperm vcr))). rewrite Ev. left; reflexivity. }
  assert (Hn : n = product_count (r0 :: rs) top).
  { rewrite <- Hcount. symmetry. apply vc_count_in; assumption. }
  split.
  - rewrite <- Hn. rewrite Forall_forall in Hpos. exact (Hpos _ Hin_top).
  - intros p. destruct (product_count (r0 :: rs) p) as [|k] eqn:Ek; [lia|].
    rewrite <- Hn.
    assert (Hv : (0 < vc_count vcr p)%nat) by (rewrite Hcount, Ek; lia).
    destruct (vc_count_pos_in _ _ Hv) as [m Hm].
    assert (Hmk : m = S k) by (rewrite <- Ek, <- Hcount; symmetry; apply vc_count_in; assumption).
    subst m.
    assert (Hm' : In (p, S k) (vc_order vcr)) by exact (Permutation_in _ (Hperm vcr) Hm).
    rewrite Ev in Hm'.
    assert (Hs := Hsort vcr). rewrite Ev in Hs.
    apply Sorted_StronglySorted in Hs.
    2:{ intros [a x] [b y] [c z]; simpl. rewrite !Nat.leb_le. lia. }
    inversion Hs as [|? ? _ Hall]; subst.
    destruct Hm' as [E|Hm'].
    + injection E as -> ->. lia.
    + rewrite Forall_forall in Hall. specialize (Hall _ Hm'). cbn [snd] in Hall.
      apply Nat.leb_le in Hall. exact Hall.
Qed.

(** X15: when the table has rows and a [product] column whose values are all
    missing, [get_analytics_insights] fails with an [IndexError] instead of
    returning insights. *)
Theorem insights_no_products_index_error
    (vc_order : list (string * nat) -> list (string * nat))
    (Hperm : forall l, Permutation l (vc_order l))
    (data : idata)
    (Hp : ihas_product data = true) (Hne : irows data <> [])
    (Hnone : forall r, In r (irows data) -> iproduct r = None) :
  get_analytics_insights vc_order data =
  inr "IndexError: index 0 is out of bounds for axis 0 with size 0".
Proof.
  destruct data as [hr hd hc hp rows]. simpl in Hp, Hne, Hnone. subst hp.
  unfold get_analytics_insights. cbn [irows ihas_product].
  destruct rows as [|r0 rs]; [contradiction|].
  assert (Hv : value_counts_raw (map iproduct (r0 :: rs)) = []).
  { unfold value_counts_raw.
    assert (Hacc : forall acc, fold_left (fun acc x => match x with
                                                       | Some p => vc_add p acc
                                                       | None => acc end)
                                         (map iproduct (r0 :: rs)) acc = acc).
    { revert Hnone. generalize (r0 :: rs) as l. induction l as [|x l IH]; intros H acc; simpl;
        [reflexivity|].
      rewrite (H x (or_introl eq_refl)). apply IH. intros r Hr; apply H; right; exact Hr. }
    apply Hacc. }
  rewrite Hv.
  assert (Ho : vc_order [] = []) by (apply Permutation_nil; exact (Hperm [])).
  rewrite Ho. destruct hr, hc; reflexivity.
Qed.

(** ** Column-wise cleaning *)

Lemma map_nth_length {A} (j : nat) (f : A -> A) (l : list A) :
  List.length (map_nth j f l) = List.length l.
Proof.
  revert j. induction l as [|x l IH]; intros j; [reflexivity|]. destruct j; simpl; auto.
Qed.

Lemma nth_map_nth_same {A} (j : nat) (f : A -> A) (l : list A) (d : A) :
  (j < List.length l)%nat -> nth j (map_nth j f l) d = f (nth j l d).
Proof.
  revert j. induction l as [|x l IH]; intros j H; simpl in H; [lia|].
  destruct j; simpl; [reflexivity|]. apply IH. lia.
Qed.

Lemma nth_map_nth_other {A} (j k : nat) (f : A -> A) (l : list A) (d : A) :
  k <> j -> nth j (map_nth k f l) d = nth j l d.
Proof.
  revert j k. induction l as [|x l IH]; intros j k H; [reflexivity|].
  destruct k, j; simpl; try reflexivity; [lia|]. apply IH. lia.
Qed.

Lemma nth_error_map_nth_same {A} (j : nat) (f : A -> A) (l : list A) :
  nth_error (map_nth j f l) j = option_map f (nth_error l j).
Proof.
  revert j. induction l as [|x l IH]; intros j; [destruct j; reflexivity|].
  destruct j; simpl; auto.
Qed.

Lemma nth_error_map_nth_other {A} (j k : nat) (f : A -> A) (l : list A) :
  k <> j -> nth_error (map_nth k f l) j = nth_error l j.
Proof.
  revert j k. induction l as [|x l IH]; intros j k H; [reflexivity|].
  destruct k, j; simpl; try reflexivity; [lia|]. apply IH. lia.
Qed.

Lemma column_map_column_same (j : nat) (f : cellp -> cellp) (rows : list (list cellp)) :
  (forall r, In r rows -> j < List.length r)%nat ->
  column j (map_column j f rows) = map f (column j rows).
Proof.
  intros H. unfold column, map_column. rewrite !map_map. apply map_ext_in.
  intros r Hr. apply nth_map_nth_same. exact (H r Hr).
Qed.

Lemma column_map_column_other (j k : nat) (f : cellp -> cellp) (rows : list (list cellp)) :
  k <> j -> column j (map_column k f rows) = column j rows.
Proof.
  intros H. unfold column, map_column. rewrite map_map. apply map_ext.
  intros r. apply nth_map_nth_other. exact H.
Qed.

Lemma map_column_width (j k : nat) (f : cellp -> cellp) (rows : list (list cellp)) :
  (forall r, In r rows -> j < List.length r)%nat ->
  (forall r, In r (map_column k f rows) -> j < List.length r)%nat.
Proof.
  intros H r Hr. unfold map_column in Hr. apply in_map_iff in Hr.
  destruct Hr as [r0 [<- Hr0]]. rewrite map_nth_length. exact (H r0 Hr0).
Qed.

Lemma NoDup_fst_in_head {A B} (j : A) (x y : B) (rest : list (A * B)) :
  NoDup (map fst ((j, x) :: rest)) -> In (j, y) ((j, x) :: rest) -> x = y.
Proof.
  intros Hnd [E|Hin]; [injection E as ->; reflexivity|].
  inversion Hnd as [|? ? Hj _]; subst. exfalso. apply Hj.
  apply (in_map fst) in Hin. exact Hin.
Qed.

Lemma map_fst_combine_seq {B} (s : nat) (l : list B) :
  map fst (combine (seq s (List.length l)) l) = seq s (List.length l).
Proof.
  revert s. induction l as [|x l IH]; intros s; simpl; [reflexivity|]. f_equal. apply IH.
Qed.

Lemma indexed_cols_nodup (df : frame) : NoDup (map fst (indexed_cols df)).
Proof. unfold indexed_cols. rewrite map_fst_combine_seq. apply seq_NoDup. Qed.

Lemma combine_seq_in {B} (l : list B) (s j : nat) (c : B) :
  nth_error l j = Some c -> In ((s + j)%nat, c) (combine (seq s (List.length l)) l).
Proof.
  revert s j. induction l as [|x l IH]; intros s j H; [destruct j; discriminate H|].
  destruct j; simpl in H |- *.
  - injection H as ->. left. f_equal. lia.
  - right. replace (s + S j)%nat with (S s + j)%nat by lia. apply IH. exact H.
Qed.

Lemma indexed_cols_in (df : frame) (j : nat) (c : string * dtype) :
  nth_error (fcols df) j = Some c -> In (j, c) (indexed_cols df).
Proof. intros H. exact (combine_seq_in (fcols df) 0 j c H). Qed.

Section ColumnLoops.

Variable conv : list cellp -> option (cellp -> cellp).

Lemma standardize_from_width (cols : list (nat * (string * dtype))) (df : frame) (k : nat) :
  (forall r, In r (frows df) -> k < List.length r)%nat ->
  (forall r, In r (frows (standardize_from conv cols df)) -> k < List.length r)%nat.
Proof.
  revert df. induction cols as [|[j [name d]] rest IH]; intros df H; simpl; [exact H|].
  apply IH. destruct (is_date_name name); [|exact H].
  destruct (conv (column j (frows df))); [|exact H]. simpl. apply map_column_width. exact H.
Qed.

Lemma standardize_from_other (cols : list (nat * (string * dtype))) (df : frame) (j : nat) :
  ~ In j (map fst cols) ->
  column j (frows (standardize_from conv cols df)) = column j (frows df) /\
  nth_error (fcols (standardize_from conv cols df)) j = nth_error (fcols df) j.
Proof.
  revert df. induction cols as [|[k [name d]] rest IH]; intros df H; simpl; [auto|].
  simpl in H. assert (Hkj : k <> j) by (intros E; apply H; left; exact E).
  destruct (IH (if is_date_name name then
                  match conv (column k (frows df)) with
                  | Some c => mkFrame (set_dtype k DtDatetime (fcols df))
                                (map_column k c (frows df))
                  | None => df
                  end
                else df)) as [H1 H2]; [intros Hin; apply H; right; exact Hin|].
  rewrite H1, H2. destruct (is_date_name name); [|auto].
  destruct (conv (column k (frows df))) as [c|]; [|auto]. simpl. split.
  - apply column_map_column_other. exact Hkj.
  - apply nth_error_map_nth_other. exact Hkj.
Qed.

Lemma standardize_from_hit (cols : list (nat * (string * dtype))) (df : frame) (j : nat)
    (name : string) (dt : dtype) (f : cellp -> cellp) :
  NoDup (map fst cols) -> In (j, (name, dt)) cols -> is_date_name name = true ->
  conv (column j (frows df)) = Some f ->
  (forall r, In r (frows df) -> j < List.length r)%nat ->
  column j (frows (standardize_from conv cols df)) = map f (column j (frows df)) /\
  nth_error (fcols (standardize_from conv cols df)) j =
    option_map (fun c => (fst c, DtDatetime)) (nth_error (fcols df) j).
Proof.
  revert df. induction cols as [|[k [nm d]] rest IH]; intros df Hnd Hin Hname Hc Hw;
    [contradiction|].
  simpl. destruct (Nat.eq_dec k j) as [->|Hkj].
  - assert (E := NoDup_fst_in_head j (nm, d) (name, dt) rest Hnd Hin).
    injection E as -> ->. rewrite Hname, Hc.
    inversion Hnd as [|? ? Hj _]; subst.
    destruct (standardize_from_other rest
                (mkFrame (set_dtype j DtDatetime (fcols df)) (map_column j f (frows df))) j Hj)
      as [H1 H2].
    rewrite H1, H2. simpl. split.
    + apply column_map_column_same. exact Hw.
    + apply nth_error_map_nth_same.
  - destruct Hin as [E|Hin]; [injection E as E; congruence|].
    inversion Hnd as [|? ? _ Hnd']; subst.
    set (df' := if is_date_name nm then
                  match conv (column k (frows df)) with
                  | Some c => mkFrame (set_dtype k DtDatetime (fcols df))
                                (map_column k c (frows df))
                  | None => df
                  end
                else df).
    assert (Hcol : column j (frows df') = column j (frows df) /\
                   nth_error (fcols df') j = nth_error (fcols df) j /\
                   (forall r, In r (frows df') -> j < List.length r)%nat).
    { unfold df'. destruct (is_date_name nm); [|auto].
      destruct (conv (column k (frows df))) as [c|]; [|auto]. simpl. split; [|split].
      - apply column_map_column_other. exact Hkj.
      - apply nth_error_map_nth_other. exact Hkj.
      - apply map_column_width. exact Hw. }
    destruct Hcol as [Hc1 [Hc2 Hc3]].
    rewrite <- Hc1 in Hc |- *. rewrite <- Hc2.
    apply IH; assumption.
Qed.

End ColumnLoops.

Lemma py_contains_app (needle p x : string) :
  py_contains needle x = true -> py_contains needle (p ++ x) = true.
Proof.
  intros H. induction p as [|a p IH]; simpl; [exact H|].
  rewrite IH. apply orb_true_r.
Qed.

Lemma prefix_app (n s : string) : String.prefix n (n ++ s) = true.
Proof.
  induction n as [|a n IH]; simpl; [destruct s; reflexivity|].
  destruct (ascii_dec a a) as [_|H]; [exact IH|contradiction].
Qed.

Lemma py_contains_self (n s : string) : py_contains n (n ++ s) = true.
Proof.
  assert (Hp := prefix_app n s). destruct (n ++ s) as [|c h]; cbn [py_contains]; rewrite Hp;
    reflexivity.
Qed.

Lemma width_lt (df : frame) (j : nat) (c : string * dtype) :
  nth_error (fcols df) j = Some c ->
  (forall r, In r (frows df) -> List.length r = List.length (fcols df)) ->
  (forall r, In r (frows df) -> j < List.length r)%nat.
Proof.
  intros Hc Hw r Hr. rewrite (Hw r Hr). apply nth_error_Some. congruence.
Qed.

(** X16: with [standardize_dates], [clean_data] converts every column whose
    lower-cased name contains "date" or "time" anywhere, also inside another
    word ("candidate", "Lifetime_value", "overtime"): the column becomes a
    datetime column whose cells are the converted cells. *)
Theorem clean_data_converts_date_substring_columns
    (conv : list cellp -> option (cellp -> cellp)) (df : frame) (j : nat)
    (name : string) (dt : dtype) (p s : string) (f : cellp -> cellp)
    (Hcol : nth_error (fcols df) j = Some (name, dt))
    (Hname : py_lower name = p ++ "date" ++ s \/ py_lower name = p ++ "time" ++ s)
    (Hw : forall r, In r (frows df) -> List.length r = List.length (fcols df))
    (Hconv : conv (column j (frows df)) = Some f) :
  nth_error (fcols (clean_data conv df false "Keep as is" true)) j = Some (name, DtDatetime) /\
  column j (frows (clean_data conv df false "Keep as is" true)) = map f (column j (frows df)).
Proof.
  change (clean_data conv df false "Keep as is" true) with (standardize_date_columns conv df).
  unfold standardize_date_columns.
  assert (Hn : is_date_name name = true).
  { unfold is_date_name. destruct Hname as [E|E]; rewrite E.
    - rewrite (py_contains_app "date" p ("date" ++ s)); [reflexivity|apply py_contains_self].
    - rewrite (py_contains_app "time" p ("time" ++ s)); [apply orb_true_r|apply py_contains_self]. }
  destruct (standardize_from_hit conv (indexed_cols df) df j name dt f
              (indexed_cols_nodup df) (indexed_cols_in df j _ Hcol) Hn Hconv
              (width_lt df j _ Hcol Hw)) as [H1 H2].
  rewrite H2, Hcol. split; [reflexivity|exact H1].
Qed.

Lemma fill_means_from_width (cols : list (nat * (string * dtype))) (rows : list (list cellp))
    (k : nat) :
  (forall r, In r rows -> k < List.length r)%nat ->
  (forall r, In r (fill_means_from cols rows) -> k < List.length r)%nat.
Proof.
  revert rows. induction cols as [|[j [name d]] rest IH]; intros rows H; simpl; [exact H|].
  destruct d; apply IH; try exact H.
  destruct (col_mean (column j rows)); [apply map_column_width|]; exact H.
Qed.






(** ** Uploaded files *)

Lemma drop_spaces_head (l : list ascii) :
  drop_spaces l = [] \/ exists c t, drop_spaces l = c :: t /\ is_py_space c = false.
Proof.
  induction l as [|c l IH]; simpl; [left; reflexivity|].
  destruct (is_py_space c) eqn:E; [exact IH|]. right. exists c, l. auto.
Qed.

Lemma drop_spaces_id (l : list ascii) :
  (l = [] \/ exists c t, l = c :: t /\ is_py_space c = false) -> drop_spaces l = l.
Proof.
  intros [->|[c [t [-> E]]]]; simpl; [reflexivity|]. rewrite E. reflexivity.
Qed.

Lemma drop_spaces_idem (l : list ascii) : drop_spaces (drop_spaces l) = drop_spaces l.
Proof. apply drop_spaces_id, drop_spaces_head. Qed.

Lemma drop_spaces_suffix (l : list ascii) : exists pre, l = (pre ++ drop_spaces l)%list.
Proof.
  induction l as [|c l [pre IH]]; simpl; [exists []; reflexivity|].
  destruct (is_py_space c); [exists (c :: pre); simpl; f_equal; exact IH|].
  exists []; reflexivity.
Qed.

Lemma py_strip_idem (s : string) : py_strip (py_strip s) = py_strip s.
Proof.
  unfold py_strip. rewrite list_ascii_of_string_of_list_ascii.
  set (l1 := drop_spaces (list_ascii_of_string s)).
  set (D := drop_spaces (rev l1)).
  assert (Hpre : drop_spaces (rev D) = rev D).
  { destruct (drop_spaces_suffix (rev l1)) as [pre Hp]. fold D in Hp.
    assert (Hl1 : l1 = (rev D ++ rev pre)%list).
    { rewrite <- (rev_involutive l1), Hp, rev_app_distr. reflexivity. }
    apply drop_spaces_id. destruct (rev D) as [|c t] eqn:Ed; [left; reflexivity|right].
    exists c, t. split; [reflexivity|].
    destruct (drop_spaces_head (list_ascii_of_string s)) as [E|[c' [t' [E Hc']]]];
      fold l1 in E; rewrite E in Hl1; simpl in Hl1; [discriminate Hl1|].
    injection Hl1 as -> _. exact Hc'. }
  rewrite Hpre, rev_involutive. unfold D at 1. rewrite drop_spaces_idem. reflexivity.
Qed.

(** X18: a DataFrame that [process_uploaded_file] returns has stripped
    column names (stripping them again changes nothing), and returning it
    shows no message. *)
Theorem upload_columns_stripped (read_csv : string -> string -> frame + read_error)
    (read_excel : string -> frame + string) (f : uploaded_file) (w w' : world) (df : frame)
    (Hres : process_uploaded_file read_csv read_excel f w = (w', inl (Some df))) :
  w' = w /\ forall c, In c (fcols df) -> py_strip (fst c) = fst c.
Proof.
  assert (Hs : forall df0 c, In c (fcols (strip_columns df0)) -> py_strip (fst c) = fst c).
  { intros df0 c Hc. unfold strip_columns in Hc. cbn [fcols] in Hc.
    apply in_map_iff in Hc. destruct Hc as [c0 [<- _]]. apply py_strip_idem. }
  unfold process_uploaded_file in Hres. cbv zeta in Hres.
  destruct (String.eqb _ "csv").
  - destruct (read_csv "utf-8" (uf_content f)) as [df0|[m|m]].
    + injection Hres as Hw Hd. subst. split; [reflexivity|apply Hs].
    + destruct (read_csv "latin1" (uf_content f)) as [df1|e].
      * injection Hres as Hw Hd. subst. split; [reflexivity|apply Hs].
      * discriminate Hres.
    + discriminate Hres.
  - destruct (_ || _).
    + destruct (read_excel (uf_content f)) as [df0|m].
      * injection Hres as Hw Hd. subst. split; [reflexivity|apply Hs].
      * discriminate Hres.
    + discriminate Hres.
Qed.

Lemma list_ascii_of_string_app (a b : string) :
  list_ascii_of_string (a ++ b) = (list_ascii_of_string a ++ list_ascii_of_string b)%list.
Proof. induction a as [|c a IH]; simpl; [reflexivity|]. f_equal. exact IH. Qed.

Lemma take_until_dot_app (l r : list ascii) :
  ~ In "."%char l -> take_until_dot (l ++ "."%char :: r)%list = l.
Proof.
  induction l as [|c l IH]; intros H; simpl; [reflexivity|].
  destruct (Ascii.eqb_spec c "."%char) as [E|E]; [exfalso; apply H; left; exact E|].
  f_equal. apply IH. intros Hin; apply H; right; exact Hin.
Qed.

Lemma last_segment_app (p e : string) :
  ~ In "."%char (list_ascii_of_string e) -> last_segment (p ++ "." ++ e) = e.
Proof.
  intros H. unfold last_segment.
  rewrite list_ascii_of_string_app. simpl. rewrite rev_app_distr. simpl.
  rewrite <- app_assoc. simpl. rewrite take_until_dot_app.
  - rewrite rev_involutive. apply string_of_list_ascii_of_string.
  - intros Hin. apply H. apply in_rev. exact Hin.
Qed.

(** X19: the file type is the text after the last dot of the name, in any
    letter case: a name [p.e] ([e] without a dot) whose [e] lower-cased is
    not csv, xlsx or xls (say "report.csv.bak") gives [None] without
    reading the file or showing anything, and one whose [e] lower-cased is
    csv ("DATA.CSV") is read as UTF-8 CSV. *)
Theorem upload_extension_dispatch (read_csv : string -> string -> frame + read_error)
    (read_excel : string -> frame + string) (p e content : string) (w : world)
    (Hdot : ~ In "."%char (list_ascii_of_string e)) :
  (~ In (py_lower e) ["csv"; "xlsx"; "xls"] ->
   process_uploaded_file read_csv read_excel (mkUploaded (p ++ "." ++ e) content) w =
   (w, inl None)) /\
  (py_lower e = "csv" -> forall df, read_csv "utf-8" content = inl df ->
   process_uploaded_file read_csv read_excel (mkUploaded (p ++ "." ++ e) content) w =
   (w, inl (Some (strip_columns df)))).
Proof.
  unfold process_uploaded_file. cbn [uf_name uf_content]. rewrite (last_segment_app p e Hdot).
  split.
  - intros Hn. cbv zeta.
    destruct (String.eqb_spec (py_lower e) "csv") as [E|_];
      [exfalso; apply Hn; rewrite E; left; reflexivity|].
    destruct (String.eqb_spec (py_lower e) "xlsx") as [E|_];
      [exfalso; apply Hn; rewrite E; right; left; reflexivity|].
    destruct (String.eqb_spec (py_lower e) "xls") as [E|_];
      [exfalso; apply Hn; rewrite E; right; right; left; reflexivity|].
    reflexivity.
  - intros Hc df Hr. cbv zeta. rewrite Hc, Hr. reflexivity.
Qed.

(** ** The session after a failed query *)

Lemma get_table_data_aborted (raw : db -> string -> engine_outcome) (w : world)
    (t : string) (lim : option limit_arg) (Ha : aborted w = true) :
  get_table_data raw t lim w =
  (mkWorld (committed w) (working w) true
     (app (ui_log w) ["Error fetching data from " ++ t ++ ": " ++ aborted_msg]), inl empty_df).
Proof.
  destruct w as [c wk a lg]. cbn in Ha. subst a. reflexivity.
Qed.

Lemma get_table_data_missing (raw : db -> string -> engine_outcome) (w : world)
    (t : string) (lim : option limit_arg)
    (Ha : aborted w = false) (Hm : db_lookup (working w) t = None) :
  get_table_data raw t lim w =
  (mkWorld (committed w) (working w) true
     (app (ui_log w) ["Error fetching data from " ++ t ++ ": relation " ++ t ++ " does not exist"]),
   inl empty_df).
Proof.
  unfold get_table_data, try_except, bind, session_execute.
  cbn -[run_stmt]. rewrite Ha. unfold table_query. rewrite run_select_all, Hm.
  reflexivity.
Qed.

(** X1: when [get_table_data] asks for a table the open transaction does
    not have, it shows the error and returns an empty DataFrame, but it
    does not roll back: the session is left aborted, so every later
    [get_table_data] in it, for any table, returns an empty DataFrame with
    the "current transaction is aborted" error. *)
Theorem get_table_data_failure_aborts_session (raw : db -> string -> engine_outcome)
    (w : world) (t : string) (lim : option limit_arg)
    (Ha : aborted w = false) (Hm : db_lookup (working w) t = None) :
  exists w1,
    get_table_data raw t lim w = (w1, inl empty_df) /\
    committed w1 = committed w /\ aborted w1 = true /\
    ui_log w1 = app (ui_log w)
      ["Error fetching data from " ++ t ++ ": relation " ++ t ++ " does not exist"] /\
    forall t' lim',
      get_table_data raw t' lim' w1 =
      (mkWorld (committed w1) (working w1) true
         (app (ui_log w1) ["Error fetching data from " ++ t' ++ ": " ++ aborted_msg]),
       inl empty_df).
Proof.
  rewrite (get_table_data_missing raw w t lim Ha Hm).
  eexists. split; [reflexivity|]. split; [reflexivity|]. split; [reflexivity|].
  split; [reflexivity|].
  intros t' lim'. apply get_table_data_aborted. reflexivity.
Qed.

(** ** The backup and restore page *)

(** X3: on a run where "Create Backup" was not clicked, the restore never
    touches the database: the page shows the overwrite warning and, when a
    file is uploaded and "Restore from Backup" clicked, the error "Error
    reading backup file: cannot access local variable 'json' ...", since
    [json] is a local of the function bound only by the backup branch's
    [import json]. *)
Theorem restore_without_backup_never_restores (raw : db -> string -> engine_outcome)
    (backup_tables : list string) (uploaded : option (json + string))
    (restore_clicked : bool) (w : world) :
  show_database_backup raw backup_tables false uploaded restore_clicked w =
  (mkWorld (committed w) (working w) (aborted w)
     (app (ui_log w) (restore_warning ::
        match uploaded with
        | Some _ => if restore_clicked
                    then ["Error reading backup file: " ++ json_unbound_error] else []
        | None => []
        end)), inl tt).
Proof.
  unfold show_database_backup, restore_click, bind, ret, st_show.
  destruct uploaded as [u|]; [destruct restore_clicked|]; cbn;
    rewrite ?app_nil_r; rewrite <- ?app_assoc; reflexivity.
Qed.

Lemma dict_set_fresh {V} (d : list (string * V)) (k : string) (v : V) :
  ~ In k (map fst d) -> dict_set d k v = (d ++ [(k, v)])%list.
Proof.
  induction d as [|[k' v'] d IH]; simpl; intros H; [reflexivity|].
  destruct (String.eqb_spec k' k) as [E|E]; [exfalso; apply H; left; exact E|].
  f_equal. apply IH. intros Hin; apply H; right; exact Hin.
Qed.

Lemma backup_loop_aborted (raw : db -> string -> engine_outcome) (ts : list string)
    (bd : list (string * json)) (w : world)
    (Ha : aborted w = true) (Hf : forall x, In x ts -> ~ In x (map fst bd)) (Hnd : NoDup ts) :
  backup_loop raw ts bd w =
  (mkWorld (committed w) (working w) true
     (app (ui_log w) (map (fun x => "Error fetching data from " ++ x ++ ": " ++ aborted_msg) ts)),
   inl (bd ++ map (fun x => (x, JArr [])) ts)%list).
Proof.
  revert bd w Ha Hf. induction Hnd as [|x ts Hx Hnd IH]; intros bd w Ha Hf.
  - cbn. rewrite !app_nil_r. destruct w; cbn in *; subst. reflexivity.
  - cbn [backup_loop]. unfold bind at 1, try_except, bind at 1.
    rewrite (get_table_data_aborted raw w x None Ha). cbn [ret].
    rewrite dict_set_fresh by (apply Hf; left; reflexivity).
    rewrite IH.
    + cbn [committed working ui_log map]. rewrite <- !app_assoc. reflexivity.
    + reflexivity.
    + intros y Hy Hin. rewrite map_app, in_app_iff in Hin. destruct Hin as [Hin|[Hin|[]]].
      * exact (Hf y (or_intror Hy) Hin).
      * cbn in Hin. subst. exact (Hx Hy).
Qed.

(** X2: a backup whose first selected table does not exist loses every
    table: the failed SELECT leaves the backup's session aborted, each
    later table is read as an empty DataFrame, and the page still reports
    "Backup created successfully!" with an empty list for every selected
    table.  The database is not changed. *)
Theorem create_backup_missing_first_table (raw : db -> string -> engine_outcome)
    (w : world) (t : string) (rest : list string)
    (Hm : db_lookup (committed w) t = None) (Hnd : NoDup (t :: rest)) :
  create_backup raw (t :: rest) w =
  (mkWorld (committed w) (committed w) false
     (app (ui_log w)
       (app ["Error fetching data from " ++ t ++ ": relation " ++ t ++ " does not exist"]
         (app (map (fun x => "Error fetching data from " ++ x ++ ": " ++ aborted_msg) rest)
           ["Backup created successfully!"]))),
   inl (Some (JObj (map (fun x => (x, JArr [])) (t :: rest))))).
Proof.
  inversion Hnd as [|? ? Ht Hnd']; subst.
  unfold create_backup, bind at 1, with_connection.
  cbn [backup_loop]. unfold bind at 1, try_except, bind at 1.
  rewrite (get_table_data_missing raw (mkWorld (committed w) (committed w) false (ui_log w))
             t None eq_refl Hm).
  cbn [ret dict_set committed working ui_log].
  rewrite backup_loop_aborted; [| reflexivity | | exact Hnd'].
  - cbn. rewrite <- !app_assoc. reflexivity.
  - intros y Hy [E|[]]. cbn in E. subst. exact (Ht Hy).
Qed.

(** ** The table browser *)

Lemma page_rows_eq (raw : db -> string -> engine_outcome) (w : world) (t : string)
    (tb : table) (s p : nat) (Ha : aborted w = false) (Ht : db_lookup (working w) t = Some tb) :
  page_rows raw t s p w = firstn s (skipn ((p - 1) * s) (trows tb)).
Proof.
  unfold page_rows, fetch_page.
  destruct (get_table_data_spec raw w t (Some (LimText s (page_offset s p)))) as [w' [H _]].
  rewrite H. cbn [snd]. unfold table_data_outcome. rewrite Ha.
  unfold table_query. cbn [limit_truthy]. rewrite run_select_all, Ht. reflexivity.
Qed.

Lemma concat_pages {A} (l : list A) (s n k : nat) :
  List.length l <= (k + n) * s ->
  List.concat (map (fun i => firstn s (skipn (i * s) l)) (seq k n)) = skipn (k * s) l.
Proof.
  revert k. induction n as [|n IH]; intros k H.
  - cbn. symmetry. apply skipn_all2. lia.
  - cbn [seq map List.concat]. rewrite IH by lia.
    replace (S k * s) with (s + k * s) by lia. rewrite <- skipn_skipn.
    apply firstn_skipn.
Qed.

Lemma total_pages_bounds (n s : nat) :
  0 < s -> n <= total_pages n s * s /\
  forall p, 1 <= p <= total_pages n s -> (p - 1) * s < n.
Proof.
  intros Hs. unfold total_pages.
  pose proof (Nat.div_mod_eq (n + s - 1) s) as Hd.
  pose proof (Nat.mod_upper_bound (n + s - 1) s ltac:(lia)) as Hr.
  set (N := (n + s - 1) / s) in *. set (r := (n + s - 1) mod s) in *.
  split; [nia|]. intros p Hp. nia.
Qed.

(** X5: for a table the session can read, the browser's pages 1 to
    [total_pages] (page size [page_size > 0]) are all non-empty and, put
    one after the other, give back every row of the table exactly once, in
    order. *)
Theorem table_browser_pages_cover_table (raw : db -> string -> engine_outcome)
    (w : world) (t : string) (tb : table) (page_size : nat)
    (Ha : aborted w = false) (Ht : db_lookup (working w) t = Some tb)
    (Hs : 0 < page_size) :
  List.concat (map (fun p => page_rows raw t page_size p w)
              (seq 1 (total_pages (List.length (trows tb)) page_size))) = trows tb /\
  forall p, 1 <= p <= total_pages (List.length (trows tb)) page_size ->
    page_rows raw t page_size p w <> [].
Proof.
  destruct (total_pages_bounds (List.length (trows tb)) page_size Hs) as [Hn Hp].
  split.
  - rewrite <- seq_shift, map_map.
    rewrite (map_ext (fun x => page_rows raw t page_size (S x) w)
                     (fun i => firstn page_size (skipn (i * page_size) (trows tb)))).
    + rewrite concat_pages by lia. reflexivity.
    + intros i. rewrite (page_rows_eq raw w t tb page_size (S i) Ha Ht).
      replace (S i - 1) with i by lia. reflexivity.
  - intros p Hb. rewrite (page_rows_eq raw w t tb page_size p Ha Ht).
    specialize (Hp p Hb).
    destruct (skipn ((p - 1) * page_size) (trows tb)) as [|x xs] eqn:E.
    + exfalso. apply (f_equal (@List.length _)) in E. rewrite length_skipn in E.
      cbn in E. lia.
    + destruct page_size; [lia|]. discriminate.
Qed.

(** ** Schema creation and sample data *)

Lemma bind_ok {A B} (m : M A) (k : A -> M B) (w w' : world) (a : A) :
  m w = (w', inl a) -> bind m k w = k a w'.
Proof. intros H. unfold bind. rewrite H. reflexivity. Qed.

Lemma bind_err {A B} (m : M A) (k : A -> M B) (w w' : world) (e : string) :
  m w = (w', inr e) -> bind m k w = (w', inr e).
Proof. intros H. unfold bind. rewrite H. reflexivity. Qed.

(** [session.execute] with parameters that are not a non-empty list, in a
    live transaction. *)
Lemma session_execute_live (raw : db -> string -> engine_outcome) (s : stmt) (p : params)
    (w : world) (Hp : match p with PList (_ :: _) => False | _ => True end)
    (Ha : aborted w = false) :
  session_execute raw s p w =
  match run_stmt raw (working w) s p with
  | EOk d r => (mkWorld (committed w) d false (ui_log w), inl r)
  | EErr e => (mkWorld (committed w) (working w) true (ui_log w), inr e)
  end.
Proof.
  unfold session_execute. destruct p as [|kv|[|x xs]]; try contradiction; rewrite Ha; reflexivity.
Qed.

Lemma insert_sample_rows_spec (raw : db -> string -> engine_outcome) (t : string)
    (cols : list string) (rows : list (list value)) (w : world) (Ha : aborted w = false) :
  match run_sample_rows raw (working w) t cols rows with
  | Some d => insert_sample_rows raw t cols rows w =
              (mkWorld (committed w) d false (ui_log w), inl tt)
  | None => exists w' e, insert_sample_rows raw t cols rows w = (w', inr e) /\
              committed w' = committed w /\ ui_log w' = ui_log w
  end.
Proof.
  revert w Ha. induction rows as [|row rows IH]; intros w Ha.
  - cbn. destruct w; cbn in *; subst; reflexivity.
  - cbn [run_sample_rows insert_sample_rows].
    pose proof (session_execute_live raw
                  (SInsert t cols (named_placeholders (List.length cols)))
                  (named_params row) w I Ha) as Hs.
    destruct (run_stmt raw (working w) _ (named_params row)) as [d r|e] eqn:Hr.
    + rewrite (bind_ok _ _ _ _ _ Hs). exact (IH (mkWorld (committed w) d false (ui_log w)) eq_refl).
    + exists (mkWorld (committed w) (working w) true (ui_log w)), e.
      rewrite (bind_err _ _ _ _ _ Hs). auto.
Qed.

Lemma insert_sample_tables_spec (raw : db -> string -> engine_outcome)
    (ts : list (string * list string * list (list value))) (w : world) (Ha : aborted w = false) :
  match run_sample_tables raw (working w) ts with
  | Some d => insert_sample_tables raw ts w =
              (mkWorld (committed w) d false (ui_log w), inl tt)
  | None => exists w' e, insert_sample_tables raw ts w = (w', inr e) /\
              committed w' = committed w /\ ui_log w' = ui_log w
  end.
Proof.
  revert w Ha. induction ts as [|[[t cols] rows] ts IH]; intros w Ha.
  - cbn. destruct w; cbn in *; subst; reflexivity.
  - cbn [run_sample_tables insert_sample_tables].
    pose proof (insert_sample_rows_spec raw t cols rows w Ha) as H.
    destruct (run_sample_rows raw (working w) t cols rows) as [d|].
    + rewrite (bind_ok _ _ _ _ _ H).
      exact (IH (mkWorld (committed w) d false (ui_log w)) eq_refl).
    + destruct H as [w' [e [H [Hc Hl]]]]. exists w', e. rewrite (bind_err _ _ _ _ _ H). auto.
Qed.

Lemma counting_engine_customers (base : db -> string -> engine_outcome) (d : db) :
  run_stmt (counting_engine base) d (SRaw (count_sql "customers")) PNone =
  match db_lookup d "customers" with
  | Some tb => EOk d (RScalar (VInt (Z.of_nat (List.length (trows tb)))))
  | None => EErr ("relation " ++ "customers" ++ " does not exist")
  end.
Proof. reflexivity. Qed.

(** X6: [insert_sample_data] never raises and never leaves the session
    aborted.  When its count of customers fails (no customers table, or a
    transaction already aborted) it rolls back.  When the table has rows it
    changes nothing.  When it is empty it inserts the sample tables in one
    transaction: either every sample row is committed, or, if any INSERT
    fails, it rolls back and the committed database is unchanged. *)
Theorem insert_sample_data_all_or_nothing (base : db -> string -> engine_outcome) (w : world) :
  insert_sample_data (counting_engine base) w =
  (if aborted w then mkWorld (committed w) (committed w) false (ui_log w)
   else match db_lookup (working w) "customers" with
        | None => mkWorld (committed w) (committed w) false (ui_log w)
        | Some tb =>
            if Nat.eqb (List.length (trows tb)) 0 then
              let d := match run_sample_tables (counting_engine base) (working w)
                               sample_tables with
                       | Some d => d
                       | None => committed w
                       end in
              mkWorld d d false (ui_log w)
            else w
        end, inl tt).
Proof.
  unfold insert_sample_data, try_except, bind at 1, session_execute at 1.
  cbn -[run_stmt insert_sample_tables counting_engine sample_tables].
  destruct (aborted w) eqn:Ha; [reflexivity|].
  rewrite counting_engine_customers.
  destruct (db_lookup (working w) "customers") as [tb|]; [|reflexivity].
  cbn -[insert_sample_tables counting_engine sample_tables].
  destruct (List.length (trows tb)) as [|n] eqn:Hn.
  - cbn -[insert_sample_tables counting_engine sample_tables].
    pose proof (insert_sample_tables_spec (counting_engine base) sample_tables
                  (mkWorld (committed w) (working w) false (ui_log w)) eq_refl) as H.
    cbn [working] in H.
    destruct (run_sample_tables (counting_engine base) (working w) sample_tables) as [d|].
    + unfold bind. rewrite H. reflexivity.
    + destruct H as [w' [e [H [Hc Hl]]]]. unfold bind. rewrite H.
      unfold session_rollback. rewrite Hc, Hl. reflexivity.
  - cbn. destruct w; cbn in *; subst; reflexivity.
Qed.

Lemma execute_all_spec (raw : db -> string -> engine_outcome) (qs : list string) (w : world)
    (Ha : aborted w = false) :
  match run_raw_all raw (working w) qs with
  | Some d => execute_all raw qs w = (mkWorld (committed w) d false (ui_log w), inl tt)
  | None => exists w' e, execute_all raw qs w = (w', inr e)
  end.
Proof.
  revert w Ha. induction qs as [|q qs IH]; intros w Ha.
  - cbn. destruct w; cbn in *; subst; reflexivity.
  - cbn [run_raw_all execute_all].
    pose proof (session_execute_live raw (SRaw q) PNone w I Ha) as Hs. cbn [run_stmt] in Hs.
    destruct (raw (working w) q) as [d r|e].
    + rewrite (bind_ok _ _ _ _ _ Hs).
      exact (IH (mkWorld (committed w) d false (ui_log w)) eq_refl).
    + rewrite (bind_err _ _ _ _ _ Hs). eexists _, _; reflexivity.
Qed.

Lemma run_raw_all_app (raw : db -> string -> engine_outcome) (d : db) (l1 l2 : list string) :
  run_raw_all raw d (l1 ++ l2)%list =
  match run_raw_all raw d l1 with
  | Some d' => run_raw_all raw d' l2
  | None => None
  end.
Proof.
  revert d. induction l1 as [|q l1 IH]; intros d; [reflexivity|].
  cbn. destruct (raw d q); [apply IH|reflexivity].
Qed.

Lemma create_step_some {B} (raw : db -> string -> engine_outcome) (qs : list string)
    (k : unit -> M B) (w : world) (d : db)
    (Ha : aborted w = false) (E : run_raw_all raw (working w) qs = Some d) :
  bind (execute_all raw qs ;;; session_commit) k w = k tt (mkWorld d d false (ui_log w)).
Proof.
  pose proof (execute_all_spec raw qs w Ha) as H. rewrite E in H.
  unfold bind at 1 2. rewrite H. reflexivity.
Qed.

Lemma create_step_none {B} (raw : db -> string -> engine_outcome) (qs : list string)
    (k : unit -> M B) (w : world)
    (Ha : aborted w = false) (E : run_raw_all raw (working w) qs = None) :
  exists w' e, bind (execute_all raw qs ;;; session_commit) k w = (w', inr e).
Proof.
  pose proof (execute_all_spec raw qs w Ha) as H. rewrite E in H.
  destruct H as [w' [e H]]. exists w', e.
  unfold bind at 1 2. rewrite H. reflexivity.
Qed.

Lemma insert_sample_data_ok (raw : db -> string -> engine_outcome) (w : world) :
  exists w', insert_sample_data raw w = (w', inl tt).
Proof.
  unfold insert_sample_data, try_except.
  match goal with |- context [match ?m w with _ => _ end] => destruct (m w) as [w1 [[]|e]] end.
  - eexists; reflexivity.
  - eexists; reflexivity.
Qed.

Lemma with_connection_snd {A} (m : M A) (w : world) :
  snd (with_connection m w) = snd (m (mkWorld (committed w) (committed w) false (ui_log w))).
Proof. unfold with_connection. destruct (m _); reflexivity. Qed.

Ltac create_steps raw :=
  repeat match goal with
  | |- context [bind (bind (execute_all raw ?qs) (fun _ => session_commit)) ?k ?w] =>
      let E := fresh "E" in
      let wk := eval cbn [working] in (working w) in
      rewrite run_raw_all_app;
      destruct (run_raw_all raw wk qs) as [?d|] eqn:E;
      [ rewrite (create_step_some raw qs k w _ eq_refl E); cbn [working]
      | let w' := fresh "w'" in let e := fresh "e" in let H := fresh "H" in
        destruct (create_step_none raw qs k w eq_refl E) as [w' [e H]];
        rewrite H; reflexivity ]
  end.

(** X7: [initialize_database] never raises: it returns [True] exactly when
    all seventeen CREATE TABLE statements run, in the order of the
    [create_*] methods, and [False] as soon as one of them fails.  A
    failure while inserting the sample data does not change the result. *)
Theorem initialize_database_result (raw : db -> string -> engine_outcome) (w : world) :
  snd (initialize_database raw w) =
  inl (match run_raw_all raw (committed w) all_ddl with Some _ => true | None => false end).
Proof.
  unfold initialize_database. rewrite with_connection_snd.
  set (w0 := mkWorld (committed w) (committed w) false (ui_log w)).
  change (run_raw_all raw (committed w) all_ddl) with (run_raw_all raw (working w0) all_ddl).
  assert (Ha : aborted w0 = false) by reflexivity. clearbody w0.
  unfold DatabaseManager_initialize_database, try_except.
  unfold create_users_table, create_finance_tables, create_sales_tables,
    create_logistics_tables, create_hr_tables, create_projects_table,
    create_audit_log_table.
  change all_ddl with ([users_ddl] ++ [accounts_ddl; invoices_ddl; expenses_ddl; transactions_ddl]
    ++ [customers_ddl; leads_ddl; deals_ddl; activities_ddl]
    ++ [inventory_ddl; purchase_orders_ddl; work_orders_ddl]
    ++ [employees_ddl; job_postings_ddl; leave_requests_ddl]
    ++ [projects_ddl] ++ [audit_ddl] ++ [])%list.
  destruct w0 as [c0 wk0 a0 l0]. cbn in Ha. subst a0. cbn [working].
  create_steps raw.
  match goal with |- context [bind (insert_sample_data raw) _ ?w] =>
    destruct (insert_sample_data_ok raw w) as [w' H];
    rewrite (bind_ok _ _ _ _ _ H) end.
  reflexivity.
Qed.

(** ** The dashboard *)

Lemma low_stock_metric_int (raw : db -> string -> engine_outcome) (d : db) (v : value) :
  query_metric raw d q_low_stock_items = Some v -> exists n, v = VInt n.
Proof.
  unfold query_metric. cbn [run_stmt q_low_stock_items].
  destruct (db_lookup d "inventory"); [|discriminate].
  destruct (count_where _ _ _); [|discriminate].
  intros H. injection H as <-. eexists; reflexivity.
Qed.

(** X8: the Business Overview page never raises.  When any of the five
    metric queries fails, its cards show 0 for active projects, revenue and
    employees and "Inventory Status: Good"; when all of them run, they show
    the queried values, with the "Low Stock Items" card exactly when the
    low-stock count is positive. *)
Theorem business_overview_cards (raw : db -> string -> engine_outcome) (w : world) :
  (metrics_if_all_run raw (committed w) = [] ->
   snd (business_overview raw w) =
   inl [CardMetric "Active Projects" (VInt 0); CardMetric "Total Revenue" (VInt 0);
        CardMetric "Active Employees" (VInt 0); CardText "Inventory Status" "Good"]) /\
  (forall a b c e f,
   metrics_if_all_run raw (committed w) =
     [("active_customers", a); ("total_revenue", b); ("low_stock_items", c);
      ("total_employees", e); ("active_projects", f)] ->
   exists n, c = VInt n /\
   snd (business_overview raw w) =
   inl [CardMetric "Active Projects" f; CardMetric "Total Revenue" b;
        CardMetric "Active Employees" e;
        if Z.ltb 0 n then CardMetric "Low Stock Items" c
        else CardText "Inventory Status" "Good"]).
Proof.
  assert (Hrun : snd (business_overview raw w) =
                 snd (dashboard_cards (metrics_if_all_run raw (committed w))
                        (fst (with_connection (get_business_metrics raw) w)))).
  { unfold business_overview, bind at 1, with_connection.
    destruct (get_business_metrics_spec raw
                (mkWorld (committed w) (committed w) false (ui_log w))) as [w' H].
    rewrite H. reflexivity. }
  split.
  - intros E. rewrite Hrun, E. reflexivity.
  - intros a b c e f E.
    assert (Hc : exists n, c = VInt n).
    { unfold metrics_if_all_run in E.
      destruct (query_metric raw (committed w) q_active_customers); [|discriminate].
      destruct (query_metric raw (committed w) q_total_revenue); [|discriminate].
      destruct (query_metric raw (committed w) q_low_stock_items) as [vl|] eqn:Hl;
        [|discriminate].
      destruct (query_metric raw (committed w) q_total_employees); [|discriminate].
      destruct (query_metric raw (committed w) q_active_projects); [|discriminate].
      injection E as _ _ <- _ _. exact (low_stock_metric_int _ _ _ Hl). }
    destruct Hc as [n ->]. exists n. split; [reflexivity|].
    rewrite Hrun, E. reflexivity.
Qed.

(** ** Witnesses of the further properties *)

Lemma validate_data_score_range_witness :
  (forall r, In r (frows orders_frame) -> List.length r = List.length (fcols orders_frame)) /\
  (0 <= quality_score (validate_data (fun _ => false) orders_frame) <= 100)%Q /\
  (quality_score (validate_data (fun _ => false) orders_frame) == 100 <->
   missing_values (validate_data (fun _ => false) orders_frame) = O /\
   duplicates (validate_data (fun _ => false) orders_frame) = O)%Q.
Proof.
  assert (Hw : forall r, In r (frows orders_frame) ->
                 List.length r = List.length (fcols orders_frame)).
  { intros r Hr. simpl in Hr. repeat destruct Hr as [<-|Hr]; try reflexivity. contradiction. }
  split; [exact Hw|].
  exact (validate_data_score_range (fun _ => false) orders_frame Hw).
Defined.


Lemma insights_top_product_is_most_frequent_witness :
  ihas_product product_sales = true /\ irows product_sales <> [] /\
  get_analytics_insights CountSort.sort product_sales = inl product_sales_insights /\
  exists top,
    last (key_insights product_sales_insights) "" = "Top selling product: " ++ top /\
    (0 < product_count (irows product_sales) top)%nat /\
    forall p, (product_count (irows product_sales) p <=
               product_count (irows product_sales) top)%nat.
Proof.
  assert (Hres : get_analytics_insights CountSort.sort product_sales = inl product_sales_insights)
    by (vm_compute; reflexivity).
  split; [reflexivity|]. split; [discriminate|]. split; [exact Hres|].
  exact (insights_top_product_is_most_frequent CountSort.sort CountSort.Permuted_sort
           CountSort.Sorted_sort product_sales product_sales_insights
           eq_refl ltac:(discriminate) Hres).
Defined.

Lemma insights_no_products_index_error_witness :
  ihas_product no_product_sales = true /\ irows no_product_sales <> [] /\
  (forall r, In r (irows no_product_sales) -> iproduct r = None) /\
  get_analytics_insights CountSort.sort no_product_sales =
  inr "IndexError: index 0 is out of bounds for axis 0 with size 0".
Proof.
  assert (Hn : forall r, In r (irows no_product_sales) -> iproduct r = None).
  { intros r Hr. simpl in Hr. destruct Hr as [<-|[]]. reflexivity. }
  split; [reflexivity|]. split; [discriminate|]. split; [exact Hn|].
  exact (insights_no_products_index_error CountSort.sort CountSort.Permuted_sort
           no_product_sales eq_refl ltac:(discriminate) Hn).
Defined.

Lemma orders_frame_width :
  forall r, In r (frows orders_frame) -> List.length r = List.length (fcols orders_frame).
Proof.
  intros r Hr. simpl in Hr. repeat destruct Hr as [<-|Hr]; try reflexivity. contradiction.
Qed.

Lemma clean_data_converts_date_substring_columns_witness :
  nth_error (fcols orders_frame) 0 = Some ("Order_Date", DtObject) /\
  py_lower "Order_Date" = "order_" ++ "date" ++ "" /\
  to_datetime_epoch (column 0 (frows orders_frame)) = Some epoch_of_text /\
  nth_error (fcols (clean_data to_datetime_epoch orders_frame false "Keep as is" true)) 0 =
    Some ("Order_Date", DtDatetime) /\
  column 0 (frows (clean_data to_datetime_epoch orders_frame false "Keep as is" true)) =
    map epoch_of_text (column 0 (frows orders_frame)).
Proof.
  split; [reflexivity|]. split; [reflexivity|]. split; [reflexivity|].
  exact (clean_data_converts_date_substring_columns to_datetime_epoch orders_frame 0
           "Order_Date" DtObject "order_" "" epoch_of_text eq_refl
           (or_introl eq_refl) orders_frame_width eq_refl).
Defined.


Lemma upload_columns_stripped_witness :
  process_uploaded_file csv_padded_header excel_unreadable (mkUploaded "sales.csv" "x")
    sample_world = (sample_world, inl (Some (mkFrame [("revenue", DtNumeric)] []))) /\
  sample_world = sample_world /\
  forall c, In c (fcols (mkFrame [("revenue", DtNumeric)] [])) -> py_strip (fst c) = fst c.
Proof.
  assert (Hres : process_uploaded_file csv_padded_header excel_unreadable
                   (mkUploaded "sales.csv" "x") sample_world =
                 (sample_world, inl (Some (mkFrame [("revenue", DtNumeric)] []))))
    by (vm_compute; reflexivity).
  split; [exact Hres|].
  exact (upload_columns_stripped csv_padded_header excel_unreadable
           (mkUploaded "sales.csv" "x") sample_world sample_world
           (mkFrame [("revenue", DtNumeric)] []) Hres).
Defined.

Lemma upload_extension_dispatch_witness :
  ~ In "."%char (list_ascii_of_string "bak") /\
  (~ In (py_lower "bak") ["csv"; "xlsx"; "xls"] ->
   process_uploaded_file csv_padded_header excel_unreadable
     (mkUploaded ("report.csv" ++ "." ++ "bak") "x") sample_world = (sample_world, inl None)) /\
  (py_lower "bak" = "csv" -> forall df, csv_padded_header "utf-8" "x" = inl df ->
   process_uploaded_file csv_padded_header excel_unreadable
     (mkUploaded ("report.csv" ++ "." ++ "bak") "x") sample_world =
   (sample_world, inl (Some (strip_columns df)))).
Proof.
  assert (Hdot : ~ In "."%char (list_ascii_of_string "bak")).
  { simpl. intros H. repeat destruct H as [H|H]; try discriminate H. contradiction. }
  split; [exact Hdot|].
  exact (upload_extension_dispatch csv_padded_header excel_unreadable "report.csv" "bak" "x"
           sample_world Hdot).
Defined.

Lemma get_table_data_failure_aborts_session_witness :
  aborted sample_world = false /\ db_lookup (working sample_world) "ghost" = None /\
  exists w1,
    get_table_data no_raw_sql "ghost" None sample_world = (w1, inl empty_df) /\
    committed w1 = committed sample_world /\ aborted w1 = true /\
    ui_log w1 = app (ui_log sample_world)
      ["Error fetching data from " ++ "ghost" ++ ": relation " ++ "ghost" ++ " does not exist"] /\
    forall t' lim',
      get_table_data no_raw_sql t' lim' w1 =
      (mkWorld (committed w1) (working w1) true
         (app (ui_log w1) ["Error fetching data from " ++ t' ++ ": " ++ aborted_msg]),
       inl empty_df).
Proof.
  split; [reflexivity|]. split; [reflexivity|].
  exact (get_table_data_failure_aborts_session no_raw_sql sample_world "ghost" None
           eq_refl eq_refl).
Defined.

Lemma create_backup_missing_first_table_witness :
  db_lookup (committed sample_world) "ghost" = None /\
  NoDup ["ghost"; "customers"; "inventory"] /\
  create_backup no_raw_sql ["ghost"; "customers"; "inventory"] sample_world =
  (mkWorld (committed sample_world) (committed sample_world) false
     (app (ui_log sample_world)
       (app ["Error fetching data from " ++ "ghost" ++ ": relation " ++ "ghost" ++
             " does not exist"]
         (app (map (fun x => "Error fetching data from " ++ x ++ ": " ++ aborted_msg)
                 ["customers"; "inventory"])
           ["Backup created successfully!"]))),
   inl (Some (JObj (map (fun x => (x, JArr [])) ["ghost"; "customers"; "inventory"])))).
Proof.
  assert (Hnd : NoDup ["ghost"; "customers"; "inventory"]).
  { repeat constructor; simpl; intros H; repeat destruct H as [H|H];
      try discriminate H; contradiction. }
  split; [reflexivity|]. split; [exact Hnd|].
  exact (create_backup_missing_first_table no_raw_sql sample_world "ghost"
           ["customers"; "inventory"] eq_refl Hnd).
Defined.

Lemma table_browser_pages_cover_table_witness :
  aborted sample_world = false /\
  db_lookup (working sample_world) "customers" =
    Some (mkTable ["id"; "customer_id"; "status"]
       [[VInt 1; VStr "CUST-0001"; VStr "Active"];
        [VInt 2; VStr "CUST-0002"; VStr "Active"];
        [VInt 3; VStr "CUST-0003"; VStr "Prospect"]]) /\
  (0 < 2)%nat /\
  List.concat (map (fun p => page_rows no_raw_sql "customers" 2 p sample_world)
                   (seq 1 (total_pages 3 2))) =
    [[VInt 1; VStr "CUST-0001"; VStr "Active"];
     [VInt 2; VStr "CUST-0002"; VStr "Active"];
     [VInt 3; VStr "CUST-0003"; VStr "Prospect"]] /\
  forall p, (1 <= p <= total_pages 3 2)%nat -> page_rows no_raw_sql "customers" 2 p sample_world <> [].
Proof.
  split; [reflexivity|]. split; [reflexivity|]. split; [lia|].
  exact (table_browser_pages_cover_table no_raw_sql sample_world "customers"
           (mkTable ["id"; "customer_id"; "status"]
              [[VInt 1; VStr "CUST-0001"; VStr "Active"];
               [VInt 2; VStr "CUST-0002"; VStr "Active"];
               [VInt 3; VStr "CUST-0003"; VStr "Prospect"]]) 2
           eq_refl eq_refl ltac:(lia)).
Defined.

(** X20: pressing "Add Account" in the accounting module never adds an
    account: the tuple of strings handed to [execute_query] is refused by
    the driver, the session is rolled back, and the operator sees the query
    error followed by the success message; the database is left as it was
    and nothing is raised. *)
Theorem add_account_never_inserts (raw : db -> string -> engine_outcome)
    (w : world) (account_code account_name account_type : string) :
  add_account_submit raw account_code account_name account_type w =
  (mkWorld (committed w) (committed w) false
     (app (ui_log w)
        ["Query execution error: " ++ distill_error;
         "Account '" ++ account_name ++ "' added successfully!"]),
   inl tt).
Proof.
  unfold add_account_submit, with_connection, try_except, execute_query,
    bind, session_execute, session_rollback, st_show, ret.
  cbn. rewrite <- app_assoc. reflexivity.
Qed.
